(** * AI Debate Partner: the browser client, embedded and verified

  The client consists of three classes: [DebateManager] (requests to the
  backend and the pure helpers that format and validate what travels),
  [UIManager] (the panels) and [DebateApp] (the controller).  Each class
  is a [Module] below and each method a definition of the same name.

  Conventions of the embedding:
  - a JavaScript string is the list of its UTF-16 code units, so that
    [length] is the [.length] of the source;
  - a number is an IEEE 754 binary64 value ([float]);
  - values are [undefined], the JSON values a reply can carry (null,
    booleans, numbers, strings and objects; of the arrays only the
    message list of a debate state is modelled, as a list), and the
    built-in objects an indexed read can reach through
    [Object.prototype];
  - a method that can throw returns an [outcome]. *)

From Stdlib Require Import ZArith NArith List Bool Ascii String Floats Lia.
From Stdlib Require Import DecimalString.
Import ListNotations.

Set Warnings "-register-all".

(* ================================================================== *)
(** ** JavaScript strings *)

Module JsString.

Definition code_unit := N.
Definition t := list code_unit.

(** An ASCII literal of the source, as code units. *)
Definition js (s : string) : t :=
  map N_of_ascii (list_ascii_of_string s).

Fixpoint eqb (a b : t) : bool :=
  match a, b with
  | [], [] => true
  | x :: a', y :: b' => N.eqb x y && eqb a' b'
  | _, _ => false
  end.

(** WhiteSpace and LineTerminator code points of ECMAScript, the ones
    [String.prototype.trim] strips. *)
Definition is_white_space (c : code_unit) : bool :=
  (   N.eqb c 9 || N.eqb c 10 || N.eqb c 11 || N.eqb c 12 || N.eqb c 13
   || N.eqb c 32 || N.eqb c 160 || N.eqb c 5760
   || (N.leb 8192 c && N.leb c 8202)
   || N.eqb c 8232 || N.eqb c 8233 || N.eqb c 8239 || N.eqb c 8287
   || N.eqb c 12288 || N.eqb c 65279)%bool.

Fixpoint trimStart (s : t) : t :=
  match s with
  | [] => []
  | c :: rest => if is_white_space c then trimStart rest else s
  end.

Definition trimEnd (s : t) : t := rev (trimStart (rev s)).

Definition trim (s : t) : t := trimEnd (trimStart s).

(** [s.substring(0, n)] for an integer [n]: a negative end counts as 0,
    an end past the string as its length. *)
Definition substring0 (s : t) (n : Z) : t := firstn (Z.to_nat n) s.

(** Decimal text of a non-negative integer. *)
Definition decimal (n : N) : t :=
  js (NilEmpty.string_of_uint (N.to_uint n)).

End JsString.

Abbreviation jsstring := JsString.t.
Abbreviation js := JsString.js.

(* ================================================================== *)
(** ** Values, truthiness, property reads *)

Module Js.

Inductive json : Type :=
| JNull
| JBool (b : bool)
| JNum (f : float)
| JStr (s : jsstring)
| JObj (props : list (jsstring * json)).

(** Built-in objects that a read can reach through the prototype chain of
    a plain object. *)
Inductive builtin : Type :=
| NativeFunction (name : jsstring)
| ObjectPrototype.

Inductive value : Type :=
| Undefined
| Data (j : json)
| Builtin (b : builtin).

Abbreviation Null := (Data JNull).
Abbreviation Str s := (Data (JStr s)).
Abbreviation Num f := (Data (JNum f)).

(** Exceptions.  [Error t] is [new Error(x)] with [t] the text of [x]. *)
Inductive text : Type :=
| Chars (s : jsstring)
| NumberText (f : float).   (* Number::toString of [f] *)

Inductive exception : Type :=
| Error (message : text)
| TypeError
| SyntaxError.

Inductive outcome (A : Type) : Type :=
| Return (a : A)
| Throw (e : exception).
Arguments Return {A} a.
Arguments Throw {A} e.

Definition bind {A B} (m : outcome A) (k : A -> outcome B) : outcome B :=
  match m with
  | Return a => k a
  | Throw e => Throw e
  end.

(** ToBoolean. *)
Definition falsy_number (f : float) : bool :=
  (PrimFloat.eqb f 0 || PrimFloat.is_nan f)%bool.

Definition truthy (v : value) : bool :=
  match v with
  | Undefined => false
  | Data JNull => false
  | Data (JBool b) => b
  | Data (JNum f) => negb (falsy_number f)
  | Data (JStr s) => match s with [] => false | _ => true end
  | Data (JObj _) => true
  | Builtin _ => true
  end.

(** The code units of a string value. *)
Definition chars (v : value) : jsstring :=
  match v with
  | Data (JStr s) => s
  | _ => []
  end.

(** [a || b] *)
Definition or_else (a b : value) : value := if truthy a then a else b.

Definition typeof (v : value) : jsstring :=
  match v with
  | Undefined => js "undefined"
  | Data JNull => js "object"
  | Data (JBool _) => js "boolean"
  | Data (JNum _) => js "number"
  | Data (JStr _) => js "string"
  | Data (JObj _) => js "object"
  | Builtin (NativeFunction _) => js "function"
  | Builtin ObjectPrototype => js "object"
  end.

Fixpoint own (props : list (jsstring * json)) (k : jsstring) : option json :=
  match props with
  | [] => None
  | (k', j) :: rest => if JsString.eqb k' k then Some j else own rest k
  end.

(** The properties every plain object inherits. *)
Definition Object_prototype_functions : list jsstring :=
  [ js "constructor"; js "__defineGetter__"; js "__defineSetter__";
    js "hasOwnProperty"; js "__lookupGetter__"; js "__lookupSetter__";
    js "isPrototypeOf"; js "propertyIsEnumerable"; js "toString";
    js "valueOf"; js "toLocaleString" ].

Definition inherited (k : jsstring) : value :=
  if JsString.eqb k (js "__proto__") then Builtin ObjectPrototype
  else if JsString.eqb k (js "constructor") then Builtin (NativeFunction (js "Object"))
  else if existsb (JsString.eqb k) Object_prototype_functions
       then Builtin (NativeFunction k)
       else Undefined.

(** ToString, which is also ToPropertyKey on these values.  A plain
    object is rendered by the inherited [toString]; when JSON data
    shadows it with an own [toString], that is not callable and neither
    [valueOf] yields a primitive, so the conversion throws. *)
Definition ToString (v : value) : outcome text :=
  match v with
  | Undefined => Return (Chars (js "undefined"))
  | Data JNull => Return (Chars (js "null"))
  | Data (JBool b) => Return (Chars (if b then js "true" else js "false"))
  | Data (JNum f) => Return (NumberText f)
  | Data (JStr s) => Return (Chars s)
  | Data (JObj props) =>
      match own props (js "toString") with
      | Some _ => Throw TypeError
      | None => Return (Chars (js "[object Object]"))
      end
  | Builtin (NativeFunction n) =>
      Return (Chars (js "function " ++ n ++ js "() { [native code] }"))
  | Builtin ObjectPrototype => Return (Chars (js "[object Object]"))
  end.

(** [v.k] and [v[k]] for a string [k].  Primitives are read through their
    wrapper and functions through Function.prototype; the own properties
    of these (length, toFixed, call, ...) are not modelled, only the end
    of their chain and the [name] of a function. *)
Definition get (v : value) (k : jsstring) : outcome value :=
  match v with
  | Undefined | Data JNull => Throw TypeError
  | Data (JObj props) =>
      match own props k with
      | Some j => Return (Data j)
      | None => Return (inherited k)
      end
  | Data _ => Return (inherited k)
  | Builtin (NativeFunction n) =>
      if JsString.eqb k (js "name") then Return (Str n)
      else Return (inherited k)
  | Builtin ObjectPrototype =>
      if JsString.eqb k (js "__proto__") then Return Null
      else Return (inherited k)
  end.

Definition member (v : value) (k : string) : outcome value := get v (js k).

(** What [v.k] yields where the read does not throw. *)
Definition read (v : value) (k : string) : value :=
  match member v k with
  | Return x => x
  | Throw _ => Undefined
  end.

(** Whether ToString yields a text. *)
Definition convertible (v : value) : bool :=
  match ToString v with
  | Return _ => true
  | Throw _ => false
  end.

(** [table[x]] for an object literal of the source, whose property names
    are identifiers.  The text of a number contains a digit or is NaN or
    Infinity, so it names neither an own nor an inherited property. *)
Definition lookup (table : list (jsstring * json)) (x : value) : outcome value :=
  bind (ToString x) (fun key =>
    match key with
    | Chars k => get (Data (JObj table)) k
    | NumberText _ => Return Undefined
    end).

End Js.

Import Js.

Declare Scope js_scope.
Delimit Scope js_scope with js.
Notation "x <- m ;; k" := (bind m (fun x => k))
(at level 61, m at next level, right associativity) : js_scope.
Notation "a ||| b" := (or_else a b) (at level 50, left associativity) : js_scope.
Open Scope js_scope.

(* ================================================================== *)
(** ** debate.js: class DebateManager *)

Module DebateManager.

(** *** The transport

    [fetch] resolves with a response or rejects (no connection); the
    rejection is a TypeError.  [ok] is true for a status in 200..299.
    [payload] is what [response.json()] resolves with, [None] when the
    body is not JSON text and [json()] rejects with a SyntaxError. *)

Record request : Type := {
  url : jsstring;
  method : jsstring;
  body : option json   (* the object given to JSON.stringify *)
}.

Record response : Type := {
  status : N;
  payload : option json
}.

Definition ok (r : response) : bool :=
  (N.leb 200 (status r) && N.leb (status r) 299)%bool.

Definition json_of (r : response) : outcome value :=
  match payload r with
  | Some j => Return (Data j)
  | None => Throw SyntaxError
  end.

(** [new Error(x)] thrown: the message is the text of [x]. *)
Definition throw_new_Error {A} (x : value) : outcome A :=
  match ToString x with
  | Return t => Throw (Error t)
  | Throw e => Throw e
  end.

Section Operations.

Variable fetch : request -> outcome response.
Variable apiUrl : jsstring.

Definition post (payload : json) : request :=
  {| url := apiUrl ++ js "/debate"; method := js "POST"; body := Some payload |}.



Definition endDebate (sessionId : jsstring) : outcome value :=
  response <- fetch (post (JObj [ (js "action", JStr (js "end"));
                                  (js "session_id", JStr sessionId) ])) ;;
  if negb (ok response) then
    error <- json_of response ;;
    detail <- member error "detail" ;;
    throw_new_Error (detail ||| Str (js "HTTP " ++ JsString.decimal (status response)))
  else
    result <- json_of response ;;
    Return result.



(** The five operations of the client, as one dispatch. *)
Inductive operation : Type :=
| Start (topicRequest : json)
| Continue (sessionId message : jsstring)
| Finish (sessionId : jsstring)
| GetState (sessionId : jsstring)
| Delete (sessionId : jsstring).


Definition request_of (op : operation) : request :=
  match op with
  | Start topicRequest =>
      post (JObj [ (js "action", JStr (js "start"));
                   (js "topic_request", topicRequest) ])
  | Continue sessionId message =>
      post (JObj [ (js "action", JStr (js "continue"));
                   (js "session_id", JStr sessionId);
                   (js "user_input",
                     JObj [ (js "session_id", JStr sessionId);
                            (js "message", JStr message);
                            (js "voice_input", JBool false) ]) ])
  | Finish sessionId =>
      post (JObj [ (js "action", JStr (js "end"));
                   (js "session_id", JStr sessionId) ])
  | GetState sessionId =>
      {| url := apiUrl ++ js "/session/" ++ sessionId;
         method := js "GET"; body := None |}
  | Delete sessionId =>
      {| url := apiUrl ++ js "/session/" ++ sessionId;
         method := js "DELETE"; body := None |}
  end.

End Operations.



(** *** formatPhase *)

Definition phaseMap : list (jsstring * json) :=
  [ (js "setup", JStr (js "Setup"));
    (js "opening", JStr (js "Opening Arguments"));
    (js "rebuttal", JStr (js "Rebuttal Phase"));
    (js "closing", JStr (js "Closing Statements"));
    (js "evaluation", JStr (js "Evaluation"));
    (js "complete", JStr (js "Complete")) ].

Definition formatPhase (phase : value) : outcome value :=
  label <- lookup phaseMap phase ;;
  Return (label ||| phase).

(** *** extractAgentInfo *)

Definition agent (name : string) (emoji : jsstring) (role : string) : json :=
  JObj [ (js "name", JStr (js name)); (js "emoji", JStr emoji);
         (js "role", JStr (js role)) ].

Definition agentMap : list (jsstring * json) :=
  [ (js "controller", agent "Controller" [0xD83C; 0xDFAF]%N "Orchestrating debate flow");
    (js "moderator", agent "Moderator" [0x2696; 0xFE0F]%N "Managing debate structure");
    (js "topic_generator", agent "Topic Generator" [0xD83D; 0xDCA1]%N "Creating debate topics");
    (js "debater_for", agent "Advocate" [0xD83D; 0xDC4D]%N "Supporting arguments");
    (js "debater_against", agent "Challenger" [0xD83D; 0xDC4E]%N "Challenging arguments");
    (js "feedback", agent "Evaluator" [0xD83D; 0xDCCA]%N "Providing feedback");
    (js "coach", agent "Coach" [0xD83C; 0xDFC6]%N "Offering strategic tips");
    (js "memory", agent "Memory" [0xD83E; 0xDDE0]%N "Managing context") ].

Record agent_info : Type := {
  name : value;
  emoji : value;
  role : value;
  confidence : value;
  reasoning : value;
  metadata : value
}.

(** The result is [None] for the [null] of the source. *)
Definition extractAgentInfo (response : value) : outcome (option agent_info) :=
  if negb (truthy response) then Return None else
  named <- member response "agent_name" ;;
  let agentName := named ||| Str (js "moderator") in
  found <- lookup agentMap agentName ;;
  fallback <- lookup agentMap (Str (js "moderator")) ;;
  let agentInfo := found ||| fallback in
  name <- member agentInfo "name" ;;
  emoji <- member agentInfo "emoji" ;;
  role <- member agentInfo "role" ;;
  confidence <- member response "confidence" ;;
  reasoning <- member response "reasoning" ;;
  metadata <- member response "metadata" ;;
  Return (Some {| name := name;
                  emoji := emoji;
                  role := role;
                  confidence := confidence ||| Num 0;
                  reasoning := reasoning ||| Str (js "Processing...");
                  metadata := metadata ||| Data (JObj []) |}).

(** The agent names the client knows, and the personas the specification
    lists. *)
Definition known_agents : list jsstring := map fst agentMap.


(** The name under which a response's agent is looked up, and the entry
    of the moderator. *)
Definition agentName_of (response : value) : value :=
  read response "agent_name" ||| Str (js "moderator").

Definition moderator : value := read (Data (JObj agentMap)) "moderator".

(** A text that is not the name of an inherited property. *)
Definition plain_name (key : text) : bool :=
  match key with
  | Chars k => negb (truthy (inherited k))
  | NumberText _ => true
  end.

(** A number between 0 and 1, both included. *)
Definition in_unit_interval (v : value) : bool :=
  match v with
  | Num f => (PrimFloat.leb 0 f && PrimFloat.leb f 1)%bool
  | _ => false
  end.

(** *** validateMessage *)

Record validation : Type := {
  valid : bool;
  error : option jsstring   (* [None]: the result has no [error] property *)
}.

Definition validateMessage (message : value) : validation :=
  if (negb (truthy message)
      || negb (JsString.eqb (typeof message) (js "string")))%bool then
    {| valid := false; error := Some (js "Message is required") |}
  else
    let text := chars message in
    if (List.length (JsString.trim text) =? 0)%nat then
      {| valid := false; error := Some (js "Message cannot be empty") |}
    else if (2000 <? List.length text)%nat then
      {| valid := false;
         error := Some (js "Message is too long (max 2000 characters)") |}
    else {| valid := true; error := None |}.

(** The four results [validateMessage] can give. *)
Definition required : validation :=
  {| valid := false; error := Some (js "Message is required") |}.
Definition empty : validation :=
  {| valid := false; error := Some (js "Message cannot be empty") |}.
Definition too_long : validation :=
  {| valid := false; error := Some (js "Message is too long (max 2000 characters)") |}.
Definition accepted : validation := {| valid := true; error := None |}.

End DebateManager.

(* ================================================================== *)
(** ** ui.js: class UIManager *)

Module UIManager.

(** [text] is a string, or [None] for a missing topic (null, undefined);
    [maxLength] is an integer.  A string is longer than [maxLength] only
    if [maxLength] is below every string length, so [maxLength - 3] is
    exact. *)
Definition truncateText (text : option jsstring) (maxLength : Z) : jsstring :=
  match text with
  | None => js ""
  | Some text =>
      if negb (truthy (Str text)) then js ""
      else if (Z.of_nat (List.length text) <=? maxLength)%Z then text
      else JsString.substring0 text (maxLength - 3) ++ js "..."
  end.

(** The agent panel: what its elements were last given.  The meter is
    drawn from [meter]; its percent text, [Math.round] of a hundred times
    that value, is not computed here.  [updateAgentInfo], which writes
    the panel, is embedded with the page below. *)
Record panel : Type := {
  agentName : value;
  agentRole : value;
  agentReasoning : value;
  meter : value;
  avatar : value
}.

End UIManager.

(* ================================================================== *)
(** ** app.js: class DebateApp *)

Module DebateApp.

Record chat_message : Type := {
  role : jsstring;
  content : jsstring
}.

(** The controller's fields, the chat list of the page and the requests
    issued so far.  Session identifiers are strings. *)
Record app : Type := {
  currentSessionId : option jsstring;   (* [None]: null *)
  currentState : value;
  messagesList : list chat_message;
  sent : list DebateManager.request
}.

Definition apiBaseUrl : jsstring := js "http://localhost:8000/api".

Definition session_value (a : app) : value :=
  match currentSessionId a with
  | Some id => Str id
  | None => Null
  end.

(** [sendMessage] up to the point where it awaits the reply: the guard,
    the user's message added to the chat, the request issued.  What the
    reply then changes is not part of this definition. *)
Definition sendMessage (inputValue : jsstring) (a : app) : app :=
  let message := JsString.trim inputValue in
  if (negb (truthy (Str message)) || negb (truthy (session_value a)))%bool then a
  else
    {| currentSessionId := currentSessionId a;
       currentState := currentState a;
       messagesList := messagesList a ++ [ {| role := js "user"; content := message |} ];
       sent := sent a ++
         [ DebateManager.post apiBaseUrl
             (JObj [ (js "action", JStr (js "continue"));
                     (js "session_id", JStr (chars (session_value a)));
                     (js "user_input",
                       JObj [ (js "session_id", JStr (chars (session_value a)));
                              (js "message", JStr message);
                              (js "voice_input", JBool false) ]) ]) ] |}.

End DebateApp.

(* ================================================================== *)
(** ** The phase state machine of the backend *)

Module PhaseStateMachine.

(** The backend (backend/main.py with its agents and services) is not
    among the sources; the client only displays the phase it is sent.
    This module follows section 4.2 of the specification: a linear graph
    from [setup] to [complete], each transition with its guard, a rejected
    proposal failing with PhaseViolation and leaving the state unchanged,
    and an "end" action accepted from any non-terminal phase. *)

(** Modelled from the spec: the six states of the phase state machine,
    which the backend defines. *)
Inductive phase : Type :=
| setup | opening | rebuttal | closing | evaluation | complete.

Definition phase_name (p : phase) : jsstring :=
  match p with
  | setup => js "setup"
  | opening => js "opening"
  | rebuttal => js "rebuttal"
  | closing => js "closing"
  | evaluation => js "evaluation"
  | complete => js "complete"
  end.

(** Position along the linear sequence. *)
Definition rank (p : phase) : nat :=
  match p with
  | setup => 0
  | opening => 1
  | rebuttal => 2
  | closing => 3
  | evaluation => 4
  | complete => 5
  end.

Definition next (p : phase) : phase :=
  match p with
  | setup => opening
  | opening => rebuttal
  | rebuttal => closing
  | closing => evaluation
  | evaluation => complete
  | complete => complete
  end.

(** Modelled from the spec: the part of a backend session the machine
    reads and writes. *)
Record session : Type := {
  phase_of : phase;
  current_round : nat
}.

(** Modelled from the spec: the events the guards of section 4.2 speak
    of; the backend's request handlers are missing. *)
Inductive action : Type :=
| Create      (* the session is created with a topic and a position *)
| Exchange    (* a full user-assistant exchange completes *)
| Advance     (* the transition to the next debate phase is proposed *)
| End_        (* the explicit "end" action *)
| Report.     (* the scorer has produced its report *)

Inductive result : Type :=
| Ok (s : session)
| PhaseViolation.

Section Policy.

Variable configured_minimum_rounds : nat.

(** Modelled from the spec: the transition function of the backend's
    phase state machine, one case per guard of section 4.2. *)
Definition step (s : session) (a : action) : result :=
  match a, phase_of s with
  | Create, setup => Ok {| phase_of := opening; current_round := current_round s |}
  | Exchange, (opening | rebuttal | closing) =>
      Ok {| phase_of := phase_of s; current_round := S (current_round s) |}
  | Advance, opening =>
      if (1 <=? current_round s)%nat
      then Ok {| phase_of := rebuttal; current_round := current_round s |}
      else PhaseViolation
  | Advance, rebuttal =>
      if (configured_minimum_rounds <=? current_round s)%nat
      then Ok {| phase_of := closing; current_round := current_round s |}
      else PhaseViolation
  | End_, complete => PhaseViolation
  | End_, _ => Ok {| phase_of := evaluation; current_round := current_round s |}
  | Report, evaluation => Ok {| phase_of := complete; current_round := current_round s |}
  | _, _ => PhaseViolation
  end.

(** Modelled from the spec: a failed action leaves the session as it
    was. *)
Definition apply (s : session) (a : action) : session :=
  match step s a with
  | Ok s' => s'
  | PhaseViolation => s
  end.

(** Modelled from the spec: the session after a sequence of actions. *)
Definition run (s : session) (actions : list action) : session :=
  fold_left apply actions s.

End Policy.

(** Modelled from the spec: the default of the policy value. *)
Definition default_minimum_rounds : nat := 3.

End PhaseStateMachine.

(* ================================================================== *)
(** * The rest of the client: the page and its handlers

    The modules below embed the remaining methods of the three classes
    over a fuller state: the elements of the page that the methods write,
    and the controller with the requests it has issued.  A handler is
    given what its awaited operation settles with. *)

(** ** Programs that change a state and may throw *)

Module Prog.

(** What a method can throw: an exception of the language, or the
    DOMException that [classList.add] raises for a token with white
    space. *)
Inductive thrown : Type :=
| Native (e : exception)
| InvalidCharacterError.

Inductive result (A : Type) : Type :=
| Done (a : A)
| Raised (t : thrown).
Arguments Done {A} a.
Arguments Raised {A} t.

(** A computation over a state [S]: it ends with a value or with something
    thrown, and in both cases with the state its effects have produced so
    far. *)
Definition prog (S A : Type) : Type := S -> result A * S.

Definition ret {S A} (a : A) : prog S A := fun s => (Done a, s).

Definition throw {S A} (t : thrown) : prog S A := fun s => (Raised t, s).

Definition bind {S A B} (m : prog S A) (k : A -> prog S B) : prog S B :=
  fun s =>
    match m s with
    | (Done a, s') => k a s'
    | (Raised t, s') => (Raised t, s')
    end.

(** An expression that may throw and has no effect on the state. *)
Definition lift {S A} (o : outcome A) : prog S A :=
  fun s =>
    match o with
    | Return a => (Done a, s)
    | Throw e => (Raised (Native e), s)
    end.

Definition get {S} : prog S S := fun s => (Done s, s).

Definition modify {S} (f : S -> S) : prog S unit := fun s => (Done tt, f s).

(** [try { m } catch (error) { handler error }] *)
Definition try_catch {S A} (m : prog S A) (handler : thrown -> prog S A) : prog S A :=
  fun s =>
    match m s with
    | (Done a, s') => (Done a, s')
    | (Raised t, s') => handler t s'
    end.

(** [try { m } finally { f }]: [f] runs in both cases; what [f] throws
    replaces the outcome of [m]. *)
Definition finally {S A} (m : prog S A) (f : prog S unit) : prog S A :=
  fun s =>
    match m s with
    | (o, s') =>
        match f s' with
        | (Done _, s'') => (o, s'')
        | (Raised t, s'') => (Raised t, s'')
        end
    end.

(** A program on a part [T] of the state [S]. *)
Definition zoom {S T A} (part : S -> T) (put : T -> S -> S) (m : prog T A) : prog S A :=
  fun s =>
    match m (part s) with
    | (o, t) => (o, put t s)
    end.

(** The state a program ends in. *)
Definition exec {S A} (m : prog S A) (s : S) : S := snd (m s).

(** A property of the state that a program keeps, whether it throws or
    not. *)
Definition keeps {S A} (P : S -> Prop) (m : prog S A) : Prop :=
  forall s, P s -> P (exec m s).

(** A program that never throws. *)
Definition safe {S A} (m : prog S A) : Prop :=
  forall s, exists a, fst (m s) = Done a.

End Prog.

Notation "x <-- m ;; k" := (Prog.bind m (fun x => k))
  (at level 61, m at next level, right associativity) : js_scope.
Notation "m ;;; k" := (Prog.bind m (fun _ => k))
  (at level 61, right associativity) : js_scope.

(* ================================================================== *)
(** ** debate.js: the debate state and its statistics *)

Module DebateManagerStats.

(** A primitive value: what a reply can carry other than an object. *)
Inductive primitive : Type :=
| PUndefined
| PNull
| PBool (b : bool)
| PNum (f : float)
| PStr (s : jsstring).

Definition value_of (p : primitive) : value :=
  match p with
  | PUndefined => Undefined
  | PNull => Null
  | PBool b => Data (JBool b)
  | PNum f => Num f
  | PStr s => Str s
  end.

(** The debate state the backend sends, as far as the client reads it.
    The client checks none of its fields.  The topic is any primitive
    value, a string in the replies of the backend (an object as topic is
    not modelled); the messages are an array or any other value. *)
Module State.

Inductive messages_value : Type :=
| Absent                          (* undefined: the state has no messages *)
| Messages (items : list value)   (* an array *)
| Other (j : json).               (* any other value, null included *)

Record t : Type := {
  topic : primitive;
  user_position : value;
  ai_position : value;
  phase : value;
  current_round : value;
  messages : messages_value;
  created_at : value;
  updated_at : value
}.

End State.

(** What [x.length] gives: the length of an array or of a string, or
    else the property of that name. *)
Inductive length_value : Type :=
| Length (n : nat)
| Property (v : value).

Record formatted : Type := {
  topic : primitive;
  userPosition : value;
  aiPosition : value;
  phase : value;
  round : value;
  messageCount : length_value
}.

(** [state.topic || 'No topic set'] *)
Definition topic_or (topic : primitive) (default : jsstring) : primitive :=
  if truthy (value_of topic) then topic else PStr default.

(** [state.messages ? state.messages.length : 0] *)
Definition messages_length (messages : State.messages_value) : length_value :=
  match messages with
  | State.Absent => Length 0
  | State.Messages items => Length (List.length items)
  | State.Other j =>
      if truthy (Data j) then
        match j with
        | JStr s => Length (List.length s)
        | _ => Property (read (Data j) "length")
        end
      else Length 0
  end.

(** [state] is [None] for null and undefined, where reading [state.topic]
    throws. *)
Definition formatDebateState (state : option State.t) : outcome formatted :=
  match state with
  | None => Throw TypeError
  | Some state =>
      phase <- DebateManager.formatPhase (State.phase state) ;;
      Return {| topic := topic_or (State.topic state) (js "No topic set");
                userPosition := State.user_position state ||| Str (js "Not chosen");
                aiPosition := State.ai_position state ||| Str (js "Not set");
                phase := phase;
                round := State.current_round state ||| Num 0;
                messageCount := messages_length (State.messages state) |}
  end.

Record stats : Type := {
  totalMessages : nat;
  userMessages : nat;
  aiMessages : nat;
  rounds : value;
  duration : value
}.

(** [m.role === role] *)
Definition has_role (role : string) (m : value) : outcome bool :=
  found <- member m "role" ;;
  Return (match found with
          | Str s => JsString.eqb s (js role)
          | _ => false
          end).

(** [messages.filter(m => m.role === role).length] *)
Fixpoint count_role (role : string) (messages : list value) : outcome nat :=
  match messages with
  | [] => Return 0
  | m :: rest =>
      keep <- has_role role m ;;
      n <- count_role role rest ;;
      Return (if keep then S n else n)
  end.

Section Dates.

(** The minutes between two timestamps, rounded: the Date arithmetic of
    the platform, [Math.round((new Date(b) - new Date(a)) / 1000 / 60)],
    for two values that [new Date] accepts. *)
Variable minutes_between : value -> value -> float.

(** [new Date(x)] converts [x] to a primitive first, which throws a
    TypeError for an object that has none. *)
Definition duration_of (created_at updated_at : value) : outcome value :=
  if (truthy created_at && truthy updated_at)%bool then
    if (convertible created_at && convertible updated_at)%bool
    then Return (Num (minutes_between created_at updated_at))
    else Throw TypeError
  else Return (Num 0).

Definition no_stats : stats :=
  {| totalMessages := 0; userMessages := 0; aiMessages := 0;
     rounds := Num 0; duration := Num 0 |}.

(** [state] is [None] for a missing state.  Messages that are not an
    array have no [filter]: calling it throws a TypeError. *)
Definition getDebateStats (state : option State.t) : outcome stats :=
  match state with
  | None => Return no_stats
  | Some state =>
      match State.messages state with
      | State.Absent => Return no_stats
      | State.Other j =>
          if truthy (Data j) then Throw TypeError else Return no_stats
      | State.Messages messages =>
          userMessages <- count_role "user" messages ;;
          aiMessages <- count_role "ai" messages ;;
          duration <- duration_of (State.created_at state) (State.updated_at state) ;;
          Return {| totalMessages := List.length messages;
                    userMessages := userMessages;
                    aiMessages := aiMessages;
                    rounds := State.current_round state ||| Num 0;
                    duration := duration |}
      end
  end.

End Dates.

End DebateManagerStats.

(* ================================================================== *)
(** ** ui.js: the page *)

Module UIManagerView.

(** The page is taken to have the elements the methods look up by id
    (index.html is not among the sources). *)

Import Prog.

Definition robot : jsstring := [0xD83E; 0xDD16]%N.

Definition emojiMap : list (jsstring * json) :=
  [ (js "Controller", JStr [0xD83C; 0xDFAF]%N);
    (js "Moderator", JStr [0x2696; 0xFE0F]%N);
    (js "Topic Generator", JStr [0xD83D; 0xDCA1]%N);
    (js "Advocate", JStr [0xD83D; 0xDC4D]%N);
    (js "Challenger", JStr [0xD83D; 0xDC4E]%N);
    (js "Evaluator", JStr [0xD83D; 0xDCCA]%N);
    (js "Coach", JStr [0xD83C; 0xDFC6]%N);
    (js "Memory", JStr [0xD83E; 0xDDE0]%N);
    (js "AI", JStr robot);
    (js "System", JStr [0x2699; 0xFE0F]%N) ].

Definition getAgentEmoji (agentName : value) : outcome value :=
  found <- lookup emojiMap agentName ;;
  Return (found ||| Str robot).

Definition icons : list (jsstring * json) :=
  [ (js "success", JStr [0x2705]%N);
    (js "error", JStr [0x274C]%N);
    (js "warning", JStr [0x26A0; 0xFE0F]%N);
    (js "info", JStr [0x2139; 0xFE0F]%N) ].

Definition getToastIcon (type : value) : outcome value :=
  found <- lookup icons type ;;
  info <- member (Data (JObj icons)) "info" ;;
  Return (found ||| info).

(** *** The elements of the page that the methods write *)

Record header : Type := {
  roundCounter : value;
  phaseIndicator : value;
  topicDisplay : jsstring;
  topicTitle : value
}.

(** The argument of [addMessage], as its callers build it. *)
Record message : Type := {
  role : jsstring;
  content : value;
  agent_name : value;
  metadata : value
}.

(** A chat element.  Its markup is not computed: the element keeps the
    number of its id, its role class, the badge (emoji and agent name) of
    an AI or system message, the content string the markup is made from,
    and the class of its metadata type. *)
Record element : Type := {
  id : nat;
  role_class : jsstring;
  badge : option (text * text);
  body : jsstring;
  type_class : option text
}.

(** The text of a toast: a fixed text, or a prefix followed by the message
    of a caught exception. *)
Inductive toast_text : Type :=
| Plain (s : jsstring)
| Failure (prefix : jsstring) (error : thrown).

Record toast : Type := {
  toast_id : nat;
  toast_type : jsstring;
  icon : value;
  toast_message : toast_text
}.

(** Toasts are kept in the order shown; their removal by timer or click
    is not modelled. *)
Record view : Type := {
  chatShown : bool;
  head : header;
  agentPanel : UIManager.panel;
  messagesList : list element;
  messageCount : nat;
  loading : bool;
  evaluation : option jsstring;   (* the content of the evaluation modal *)
  modalActive : bool;
  toasts : list toast;
  toastCount : nat
}.

Definition with_chatShown (b : bool) (v : view) : view :=
  {| chatShown := b; head := head v; agentPanel := agentPanel v;
     messagesList := messagesList v; messageCount := messageCount v;
     loading := loading v; evaluation := evaluation v;
     modalActive := modalActive v;
     toasts := toasts v; toastCount := toastCount v |}.

Definition with_head (h : header) (v : view) : view :=
  {| chatShown := chatShown v; head := h; agentPanel := agentPanel v;
     messagesList := messagesList v; messageCount := messageCount v;
     loading := loading v; evaluation := evaluation v;
     modalActive := modalActive v;
     toasts := toasts v; toastCount := toastCount v |}.

Definition with_agentPanel (p : UIManager.panel) (v : view) : view :=
  {| chatShown := chatShown v; head := head v; agentPanel := p;
     messagesList := messagesList v; messageCount := messageCount v;
     loading := loading v; evaluation := evaluation v;
     modalActive := modalActive v;
     toasts := toasts v; toastCount := toastCount v |}.

Definition with_messages (l : list element) (n : nat) (v : view) : view :=
  {| chatShown := chatShown v; head := head v; agentPanel := agentPanel v;
     messagesList := l; messageCount := n;
     loading := loading v; evaluation := evaluation v;
     modalActive := modalActive v;
     toasts := toasts v; toastCount := toastCount v |}.

Definition with_loading (b : bool) (v : view) : view :=
  {| chatShown := chatShown v; head := head v; agentPanel := agentPanel v;
     messagesList := messagesList v; messageCount := messageCount v;
     loading := b; evaluation := evaluation v;
     modalActive := modalActive v;
     toasts := toasts v; toastCount := toastCount v |}.

Definition with_evaluation (e : option jsstring) (v : view) : view :=
  {| chatShown := chatShown v; head := head v; agentPanel := agentPanel v;
     messagesList := messagesList v; messageCount := messageCount v;
     loading := loading v; evaluation := e;
     modalActive := modalActive v;
     toasts := toasts v; toastCount := toastCount v |}.

Definition with_modalActive (b : bool) (v : view) : view :=
  {| chatShown := chatShown v; head := head v; agentPanel := agentPanel v;
     messagesList := messagesList v; messageCount := messageCount v;
     loading := loading v; evaluation := evaluation v;
     modalActive := b;
     toasts := toasts v; toastCount := toastCount v |}.

Definition with_toasts (l : list toast) (n : nat) (v : view) : view :=
  {| chatShown := chatShown v; head := head v; agentPanel := agentPanel v;
     messagesList := messagesList v; messageCount := messageCount v;
     loading := loading v; evaluation := evaluation v;
     modalActive := modalActive v;
     toasts := l; toastCount := n |}.

(** The chat elements are numbered from 0 in the order of the list and
    the counter is their number; likewise the toasts. *)
Definition numbered (v : view) : Prop :=
  map id (messagesList v) = seq 0 (messageCount v)
  /\ map toast_id (toasts v) = seq 0 (toastCount v).

(** *** The methods *)

Record header_stats : Type := {
  round : value;
  phase : value;
  topic : DebateManagerStats.primitive
}.

(** [element.textContent = x]: the value is converted to a string, which
    throws a TypeError for an object that has no text; the model keeps
    the value assigned. *)
Definition textContent {S} (x : value) (write : value -> S -> S) : prog S unit :=
  if convertible x then modify (write x) else throw (Native TypeError).

Definition set_roundCounter (x : value) (v : view) : view :=
  with_head {| roundCounter := x; phaseIndicator := phaseIndicator (head v);
               topicDisplay := topicDisplay (head v);
               topicTitle := topicTitle (head v) |} v.

Definition set_phaseIndicator (x : value) (v : view) : view :=
  with_head {| roundCounter := roundCounter (head v); phaseIndicator := x;
               topicDisplay := topicDisplay (head v);
               topicTitle := topicTitle (head v) |} v.

Definition set_topicDisplay (shown : jsstring) (v : view) : view :=
  with_head {| roundCounter := roundCounter (head v);
               phaseIndicator := phaseIndicator (head v);
               topicDisplay := shown; topicTitle := topicTitle (head v) |} v.

Definition set_topicTitle (full : value) (v : view) : view :=
  with_head {| roundCounter := roundCounter (head v);
               phaseIndicator := phaseIndicator (head v);
               topicDisplay := topicDisplay (head v); topicTitle := full |} v.

(** [truncateText] on whatever the header is given as a topic.  A truthy
    value that is not a string has no length, so the comparison with
    [maxLength] is false, and no [substring]: calling it throws a
    TypeError. *)
Definition truncateText (text : DebateManagerStats.primitive) (maxLength : Z)
  : outcome jsstring :=
  match text with
  | DebateManagerStats.PStr s => Return (UIManager.truncateText (Some s) maxLength)
  | _ =>
      if truthy (DebateManagerStats.value_of text) then Throw TypeError
      else Return (UIManager.truncateText None maxLength)
  end.

(** The title, like a text content, keeps the value assigned; the text
    of a primitive always exists. *)
Definition updateHeaderStats (stats : header_stats) : prog view unit :=
  textContent (round stats) set_roundCounter ;;;
  textContent (phase stats) set_phaseIndicator ;;;
  shown <-- lift (truncateText (topic stats) 50) ;;
  modify (set_topicDisplay shown) ;;;
  modify (set_topicTitle (DebateManagerStats.value_of (topic stats))).

Definition updateDebateState (state : option DebateManagerStats.State.t) : prog view unit :=
  formatted <-- lift (DebateManagerStats.formatDebateState state) ;;
  updateHeaderStats {| round := DebateManagerStats.round formatted;
                       phase := DebateManagerStats.phase formatted;
                       topic := DebateManagerStats.topic formatted |}.

Definition set_agentName (x : value) (v : view) : view :=
  with_agentPanel
    {| UIManager.agentName := x;
       UIManager.agentRole := UIManager.agentRole (agentPanel v);
       UIManager.agentReasoning := UIManager.agentReasoning (agentPanel v);
       UIManager.meter := UIManager.meter (agentPanel v);
       UIManager.avatar := UIManager.avatar (agentPanel v) |} v.

Definition set_agentRole (x : value) (v : view) : view :=
  with_agentPanel
    {| UIManager.agentName := UIManager.agentName (agentPanel v);
       UIManager.agentRole := x;
       UIManager.agentReasoning := UIManager.agentReasoning (agentPanel v);
       UIManager.meter := UIManager.meter (agentPanel v);
       UIManager.avatar := UIManager.avatar (agentPanel v) |} v.

Definition set_agentReasoning (x : value) (v : view) : view :=
  with_agentPanel
    {| UIManager.agentName := UIManager.agentName (agentPanel v);
       UIManager.agentRole := UIManager.agentRole (agentPanel v);
       UIManager.agentReasoning := x;
       UIManager.meter := UIManager.meter (agentPanel v);
       UIManager.avatar := UIManager.avatar (agentPanel v) |} v.

Definition set_meter (x : value) (v : view) : view :=
  with_agentPanel
    {| UIManager.agentName := UIManager.agentName (agentPanel v);
       UIManager.agentRole := UIManager.agentRole (agentPanel v);
       UIManager.agentReasoning := UIManager.agentReasoning (agentPanel v);
       UIManager.meter := x;
       UIManager.avatar := UIManager.avatar (agentPanel v) |} v.

Definition set_avatar (x : value) (v : view) : view :=
  with_agentPanel
    {| UIManager.agentName := UIManager.agentName (agentPanel v);
       UIManager.agentRole := UIManager.agentRole (agentPanel v);
       UIManager.agentReasoning := UIManager.agentReasoning (agentPanel v);
       UIManager.meter := UIManager.meter (agentPanel v);
       UIManager.avatar := x |} v.

(** [updateAgentInfo] with its writes in order.  The percent of the meter
    multiplies the confidence, which converts it to a number: a TypeError
    for an object that has no primitive value.  The meter keeps the
    confidence it is drawn from. *)
Definition updateAgentInfo (agentInfo : value) : prog view unit :=
  info <-- lift (DebateManager.extractAgentInfo agentInfo) ;;
  match info with
  | None => ret tt
  | Some info =>
      textContent (DebateManager.name info) set_agentName ;;;
      textContent (DebateManager.role info) set_agentRole ;;;
      textContent (DebateManager.reasoning info) set_agentReasoning ;;;
      (if convertible (DebateManager.confidence info)
       then modify (set_meter (DebateManager.confidence info))
       else throw (Native TypeError)) ;;;
      textContent (DebateManager.emoji info) set_avatar
  end.

Definition setupInitialState : prog view unit :=
  modify (with_chatShown false) ;;;
  updateHeaderStats {| round := Num 0; phase := Str (js "Setup");
                       topic := DebateManagerStats.PStr (js "Not Set") |} ;;;
  updateAgentInfo
    (Data (JObj [ (js "name", JStr (js "System"));
                  (js "emoji", JStr robot);
                  (js "role", JStr (js "Ready to start"));
                  (js "confidence", JNum 0);
                  (js "reasoning", JStr (js "Waiting for debate to begin...")) ])).

Definition switchToChat : prog view unit := modify (with_chatShown true).

Definition switchToSetup : prog view unit :=
  modify (with_chatShown false) ;;;
  setupInitialState.

(** [formatMessageContent] calls [content.replace], which throws a
    TypeError unless [content] is a string.  The six replacements that
    turn the string into markup are not computed: the result here is the
    string they start from. *)
Definition formatMessageContent (content : value) : outcome jsstring :=
  match content with
  | Str s => Return s
  | _ => Throw TypeError
  end.

(** [message.metadata?.type] *)
Definition metadata_type (metadata : value) : outcome value :=
  match metadata with
  | Undefined | Null => Return Undefined
  | _ => member metadata "type"
  end.

(** ASCII white space, which a class token must not contain. *)
Definition is_ascii_white_space (c : JsString.code_unit) : bool :=
  (N.eqb c 9 || N.eqb c 10 || N.eqb c 12 || N.eqb c 13 || N.eqb c 32)%bool.

(** [classList.add(`message-type-${type}`)]: the token is the text of
    [type] after a prefix without white space; the text of a number has
    none. *)
Definition add_type_class {S} (type : value) : prog S text :=
  type_text <-- lift (ToString type) ;;
  match type_text with
  | Chars s =>
      if existsb is_ascii_white_space s then throw InvalidCharacterError
      else ret type_text
  | NumberText _ => ret type_text
  end.

Definition createMessageElement (message : message) : prog view element :=
  v <-- get ;;
  badge <--
    (if (JsString.eqb (role message) (js "ai")
         || JsString.eqb (role message) (js "system"))%bool
     then
       let agentName := agent_name message ||| Str (js "AI") in
       agentEmoji <-- lift (getAgentEmoji agentName) ;;
       emoji_text <-- lift (ToString agentEmoji) ;;
       name_text <-- lift (ToString agentName) ;;
       ret (Some (emoji_text, name_text))
     else ret None) ;;
  body <-- lift (formatMessageContent (content message)) ;;
  type <-- lift (metadata_type (metadata message)) ;;
  type_class <--
    (if truthy type
     then type_text <-- add_type_class type ;; ret (Some type_text)
     else ret None) ;;
  ret {| id := messageCount v;
         role_class := role message;
         badge := badge;
         body := body;
         type_class := type_class |}.

Definition addMessage (message : message) : prog view unit :=
  messageElement <-- createMessageElement message ;;
  modify (fun v => with_messages (messagesList v ++ [messageElement])
                                 (S (messageCount v)) v).

Definition clearMessages : prog view unit :=
  modify (with_messages [] 0).

Definition showLoading (show : bool) : prog view unit :=
  modify (with_loading show).

Definition showEvaluation (evaluationContent : value) : prog view unit :=
  content <-- lift (formatMessageContent evaluationContent) ;;
  modify (with_evaluation (Some content)) ;;;
  modify (with_modalActive true).

Definition hideModal : prog view unit := modify (with_modalActive false).

(** The counter is advanced when the toast gets its id, before its icon
    is looked up. *)
Definition showToast (message : toast_text) (type : jsstring) : prog view unit :=
  v <-- get ;;
  modify (fun v => with_toasts (toasts v) (S (toastCount v)) v) ;;;
  icon <-- lift (getToastIcon (Str type)) ;;
  modify (fun v' =>
    with_toasts (toasts v' ++ [ {| toast_id := toastCount v;
                                   toast_type := type;
                                   icon := icon;
                                   toast_message := message |} ])
                (toastCount v') v').

(** What the agent panel shows after [setupInitialState]. *)
Definition moderator_panel : UIManager.panel :=
  {| UIManager.agentName := Str (js "Moderator");
     UIManager.agentRole := Str (js "Managing debate structure");
     UIManager.agentReasoning := Str (js "Waiting for debate to begin...");
     UIManager.meter := Num 0;
     UIManager.avatar := Str [0x2696; 0xFE0F]%N |}.

(** The page as the constructors leave it: both counters 0, nothing
    written to the elements yet. *)
Definition blank : view :=
  {| chatShown := false;
     head := {| roundCounter := Undefined; phaseIndicator := Undefined;
                topicDisplay := js ""; topicTitle := Str (js "") |};
     agentPanel := {| UIManager.agentName := Undefined;
                      UIManager.agentRole := Undefined;
                      UIManager.agentReasoning := Undefined;
                      UIManager.meter := Undefined;
                      UIManager.avatar := Undefined |};
     messagesList := [];
     messageCount := 0;
     loading := false;
     evaluation := None;
     modalActive := false;
     toasts := [];
     toastCount := 0 |}.

End UIManagerView.

(* ================================================================== *)
(** ** app.js: the handlers of DebateApp *)

Module DebateAppHandlers.

Import Prog.
Import UIManagerView.

(** What an awaited operation of the DebateManager resolves with, as far
    as the handlers read it.  The session id is a string when present. *)
Record reply : Type := {
  success : value;
  session_id : option jsstring;                         (* [None]: missing or null *)
  current_state : option DebateManagerStats.State.t;    (* [None]: missing or null *)
  ai_response : value;
  error : value
}.

(** The controller with its page and the requests issued so far. *)
Record controller : Type := {
  currentSessionId : option jsstring;
  currentState : option DebateManagerStats.State.t;
  ui : view;
  sent : list DebateManager.request
}.

Definition with_session (id : option jsstring) (c : controller) : controller :=
  {| currentSessionId := id; currentState := currentState c;
     ui := ui c; sent := sent c |}.

Definition with_state (st : option DebateManagerStats.State.t) (c : controller) : controller :=
  {| currentSessionId := currentSessionId c; currentState := st;
     ui := ui c; sent := sent c |}.

Definition with_ui (v : view) (c : controller) : controller :=
  {| currentSessionId := currentSessionId c; currentState := currentState c;
     ui := v; sent := sent c |}.

Definition with_sent (l : list DebateManager.request) (c : controller) : controller :=
  {| currentSessionId := currentSessionId c; currentState := currentState c;
     ui := ui c; sent := l |}.

Definition on_ui {A} (m : prog view A) : prog controller A := zoom ui with_ui m.

Definition session_value (c : controller) : value :=
  match currentSessionId c with
  | Some id => Str id
  | None => Null
  end.

Definition state_present (c : controller) : bool :=
  match currentState c with
  | Some _ => true
  | None => false
  end.

(** An awaited call of the DebateManager: the request goes out, and the
    handler resumes with what the operation settles with, [None] for a
    JSON null. *)
Definition await (request : DebateManager.request) (settled : outcome (option reply))
  : prog controller (option reply) :=
  modify (fun c => with_sent (sent c ++ [request]) c) ;;;
  lift settled.

(** [result.success] and the like: a TypeError on null. *)
Definition of_result {A} (result : option reply) (field : reply -> A) : prog controller A :=
  match result with
  | Some r => ret (field r)
  | None => throw (Native TypeError)
  end.

Definition continue_request (sessionId message : jsstring) : DebateManager.request :=
  DebateManager.request_of DebateApp.apiBaseUrl (DebateManager.Continue sessionId message).

Definition throw_new_Error {A} (x : value) : prog controller A :=
  lift (DebateManager.throw_new_Error x).

Definition resetToSetup : prog controller unit :=
  modify (with_session None) ;;;
  modify (with_state None) ;;;
  on_ui switchToSetup ;;;
  on_ui clearMessages ;;;
  on_ui (showToast (Plain (js "Ready to start a new debate!")) (js "success")).

Definition startNewDebate (category difficulty customTopicValue : jsstring)
    (settled : outcome (option reply)) : prog controller unit :=
  let customTopic := JsString.trim customTopicValue in
  finally
    (try_catch
       (on_ui (showLoading true) ;;;
        let topicRequest :=
          JObj [ (js "category", JStr category);
                 (js "difficulty", JStr difficulty);
                 (js "custom_topic",
                   if truthy (Str customTopic) then JStr customTopic else JNull) ] in
        result <-- await (DebateManager.request_of DebateApp.apiBaseUrl
                            (DebateManager.Start topicRequest)) settled ;;
        success <-- of_result result success ;;
        if truthy success then
          id <-- of_result result session_id ;;
          modify (with_session id) ;;;
          state <-- of_result result current_state ;;
          modify (with_state state) ;;;
          on_ui switchToChat ;;;
          on_ui (updateDebateState state) ;;;
          response <-- of_result result ai_response ;;
          (if truthy response then
             on_ui (addMessage {| role := js "ai";
                                  content := read response "content";
                                  agent_name := read response "agent_name";
                                  metadata := Undefined |}) ;;;
             on_ui (updateAgentInfo response)
           else ret tt) ;;;
          on_ui (showToast (Plain (js "Debate started successfully!")) (js "success"))
        else
          failure <-- of_result result error ;;
          throw_new_Error (failure ||| Str (js "Failed to start debate")))
       (fun error =>
          on_ui (showToast (Failure (js "Failed to start debate: ") error) (js "error"))))
    (on_ui (showLoading false)).

Definition sendMessage (inputValue : jsstring) (settled : outcome (option reply))
  : prog controller unit :=
  let message := JsString.trim inputValue in
  c <-- get ;;
  if (negb (truthy (Str message)) || negb (truthy (session_value c)))%bool then ret tt
  else
    finally
      (try_catch
         (on_ui (showLoading true) ;;;
          on_ui (addMessage {| role := js "user"; content := Str message;
                               agent_name := Undefined; metadata := Undefined |}) ;;;
          result <-- await (continue_request (chars (session_value c)) message) settled ;;
          success <-- of_result result success ;;
          if truthy success then
            state <-- of_result result current_state ;;
            modify (with_state state) ;;;
            on_ui (updateDebateState state) ;;;
            response <-- of_result result ai_response ;;
            if truthy response then
              on_ui (addMessage {| role := js "ai";
                                   content := read response "content";
                                   agent_name := read response "agent_name";
                                   metadata := read response "metadata" |}) ;;;
              on_ui (updateAgentInfo response)
            else ret tt
          else
            failure <-- of_result result error ;;
            throw_new_Error (failure ||| Str (js "Failed to send message")))
         (fun error =>
            on_ui (showToast (Failure (js "Failed to send message: ") error) (js "error"))))
      (on_ui (showLoading false)).

Definition coaching_request : jsstring :=
  js "Please provide coaching tips for improving my debate performance".

Definition getCoaching (settled : outcome (option reply)) : prog controller unit :=
  c <-- get ;;
  if (negb (truthy (session_value c)) || negb (state_present c))%bool then
    on_ui (showToast (Plain (js "No active debate session")) (js "warning"))
  else
    finally
      (try_catch
         (on_ui (showLoading true) ;;;
          result <-- await (continue_request (chars (session_value c)) coaching_request)
                           settled ;;
          success <-- of_result result success ;;
          response <-- (if truthy success then of_result result ai_response
                        else ret success) ;;
          if truthy response then
            on_ui (addMessage {| role := js "ai";
                                 content := read response "content";
                                 agent_name := Str (js "Coach");
                                 metadata := Data (JObj [ (js "type", JStr (js "coaching")) ]) |}) ;;;
            on_ui (updateAgentInfo response) ;;;
            on_ui (showToast (Plain (js "Coaching tips provided!")) (js "success"))
          else ret tt)
         (fun error =>
            on_ui (showToast (Failure (js "Failed to get coaching: ") error) (js "error"))))
      (on_ui (showLoading false)).

Definition endDebate (settled : outcome (option reply)) : prog controller unit :=
  c <-- get ;;
  if negb (truthy (session_value c)) then
    on_ui (showToast (Plain (js "No active debate session")) (js "warning"))
  else
    finally
      (try_catch
         (on_ui (showLoading true) ;;;
          result <-- await (DebateManager.request_of DebateApp.apiBaseUrl
                              (DebateManager.Finish (chars (session_value c)))) settled ;;
          success <-- of_result result success ;;
          if truthy success then
            state <-- of_result result current_state ;;
            modify (with_state state) ;;;
            response <-- of_result result ai_response ;;
            (if truthy response then on_ui (showEvaluation (read response "content"))
             else ret tt) ;;;
            on_ui (showToast (Plain (js "Debate ended. Evaluation ready!")) (js "success"))
          else
            failure <-- of_result result error ;;
            throw_new_Error (failure ||| Str (js "Failed to end debate")))
         (fun error =>
            on_ui (showToast (Failure (js "Failed to end debate: ") error) (js "error"))))
      (on_ui (showLoading false)).

(** What the switch of a quick action selects: a message to send, the
    reset, or nothing. *)
Inductive quick : Type :=
| Ask (message : jsstring)
| NewTopic
| Nothing.

Definition quick_of (action : jsstring) : quick :=
  if JsString.eqb action (js "feedback") then
    Ask (js "Please provide detailed feedback on my debate performance so far")
  else if JsString.eqb action (js "summary") then
    Ask (js "Please summarize the key points and current state of our debate")
  else if JsString.eqb action (js "new-topic") then NewTopic
  else Nothing.

(** [action] is the data-action attribute of the button that was
    clicked. *)
Definition handleQuickAction (action : jsstring) (settled : outcome (option reply))
  : prog controller unit :=
  c <-- get ;;
  if negb (truthy (session_value c)) then
    on_ui (showToast (Plain (js "No active debate session")) (js "warning"))
  else
    finally
      (try_catch
         (on_ui (showLoading true) ;;;
          match quick_of action with
          | NewTopic => resetToSetup
          | Nothing => ret tt
          | Ask message =>
              result <-- await (continue_request (chars (session_value c)) message)
                               settled ;;
              success <-- of_result result success ;;
              response <-- (if truthy success then of_result result ai_response
                            else ret success) ;;
              if truthy response then
                on_ui (addMessage {| role := js "ai";
                                     content := read response "content";
                                     agent_name := read response "agent_name";
                                     metadata := Data (JObj [ (js "type", JStr action) ]) |}) ;;;
                on_ui (updateAgentInfo response)
              else ret tt
          end)
         (fun error =>
            on_ui (showToast (Failure (js "Failed to execute action: ") error) (js "error"))))
      (on_ui (showLoading false)).

(** The handlers of the page, as the events a user can cause. *)
Inductive event : Type :=
| StartNewDebate (category difficulty customTopicValue : jsstring)
| SendMessage (inputValue : jsstring)
| GetCoaching
| EndDebate
| QuickAction (action : jsstring)
| CloseModal
| NewDebate.      (* the button of the evaluation modal *)

Definition handle (e : event) (settled : outcome (option reply)) : prog controller unit :=
  match e with
  | StartNewDebate category difficulty customTopicValue =>
      startNewDebate category difficulty customTopicValue settled
  | SendMessage inputValue => sendMessage inputValue settled
  | GetCoaching => getCoaching settled
  | EndDebate => endDebate settled
  | QuickAction action => handleQuickAction action settled
  | CloseModal => on_ui hideModal
  | NewDebate => on_ui hideModal ;;; resetToSetup
  end.

(** The page after a sequence of events, each with what its awaited
    operation settles with; one handler runs at a time. *)
Fixpoint run (events : list (event * outcome (option reply))) (c : controller) : controller :=
  match events with
  | [] => c
  | (e, settled) :: rest => run rest (exec (handle e settled) c)
  end.

(** The controller as its constructor leaves it. *)
Definition created : controller :=
  {| currentSessionId := None; currentState := None; ui := blank; sent := [] |}.

End DebateAppHandlers.

(* ================================================================== *)
(** * Properties *)

Import DebateManager.

(** ** Strings *)

Lemma eqb_eq (a b : jsstring) : JsString.eqb a b = true <-> a = b.
Proof.
  revert b; induction a as [|x a IH]; intros [|y b]; simpl; split;
    try congruence; try reflexivity.
  - intros H. apply andb_true_iff in H as [Hx Hr].
    apply N.eqb_eq in Hx. apply IH in Hr. congruence.
  - intros H. injection H as -> ->.
    apply andb_true_iff. split; [apply N.eqb_refl | now apply IH].
Qed.

Lemma eqb_refl (a : jsstring) : JsString.eqb a a = true.
Proof. now apply eqb_eq. Qed.

Lemma eqb_neq (a b : jsstring) : JsString.eqb a b = false <-> a <> b.
Proof.
  split.
  - intros H E. apply eqb_eq in E. congruence.
  - intros H. destruct (JsString.eqb a b) eqn:E; [|reflexivity].
    apply eqb_eq in E. contradiction.
Qed.

Lemma trimStart_blank (s : jsstring) :
  forallb JsString.is_white_space s = true -> JsString.trimStart s = [].
Proof.
  induction s as [|c s IH]; simpl; [reflexivity|].
  intros H. apply andb_true_iff in H as [Hc Hs]. rewrite Hc. now apply IH.
Qed.

Lemma trim_blank (s : jsstring) :
  forallb JsString.is_white_space s = true -> JsString.trim s = [].
Proof.
  intros H. unfold JsString.trim, JsString.trimEnd.
  now rewrite (trimStart_blank s H).
Qed.

Lemma trim_nil : JsString.trim [] = [].
Proof. reflexivity. Qed.

Lemma substring0_length (s : jsstring) (n : Z) :
  (Z.of_nat (List.length s) > n)%Z -> (0 <= n)%Z ->
  Z.of_nat (List.length (JsString.substring0 s n)) = n.
Proof.
  intros Hlen Hn. unfold JsString.substring0.
  rewrite length_firstn. lia.
Qed.

(** ** truncateText *)

(** C10: for a string [text] and an integer [maxLength] of at least 3,
    [truncateText] returns at most [maxLength] code units, returns [text]
    itself when it already fits, and returns the empty string for a
    missing or empty text. *)
Theorem truncateText_fits (text : jsstring) (maxLength : Z) :
  (3 <= maxLength)%Z ->
  (Z.of_nat (List.length (UIManager.truncateText (Some text) maxLength)) <= maxLength)%Z
  /\ ((Z.of_nat (List.length text) <= maxLength)%Z ->
      UIManager.truncateText (Some text) maxLength = text)
  /\ UIManager.truncateText None maxLength = js ""
  /\ UIManager.truncateText (Some (js "")) maxLength = js "".
Proof.
  intros Hmax. unfold UIManager.truncateText.
  repeat split; try reflexivity.
  - destruct text as [|c text]; [simpl; lia|].
    cbn [truthy negb].
    destruct (Z.of_nat (List.length (c :: text)) <=? maxLength)%Z eqn:Hfit.
    + now apply Z.leb_le.
    + apply Z.leb_gt in Hfit.
      rewrite length_app, Nat2Z.inj_add, substring0_length by lia.
      change (List.length (js "...")) with 3%nat. lia.
  - intros Hfit. destruct text as [|c text]; [reflexivity|].
    cbn [truthy negb].
    apply Z.leb_le in Hfit. now rewrite Hfit.
Qed.

Lemma truncateText_fits_witness :
  (3 <= 10)%Z
  /\ (Z.of_nat (List.length
        (UIManager.truncateText (Some (js "Should homework be banned?")) 10)) <= 10)%Z
  /\ UIManager.truncateText (Some (js "Should homework be banned?")) 10
     = js "Should ...".
Proof.
  split; [lia|]. split; [|reflexivity].
  apply (truncateText_fits (js "Should homework be banned?") 10). lia.
Defined.

(** ** validateMessage *)

Lemma validateMessage_not_string (message : value) :
  (forall s, message <> Str s) -> validateMessage message = required.
Proof.
  intros H. unfold validateMessage.
  destruct message as [|[| | |s|]|[|]]; cbn [typeof];
    try (rewrite orb_true_r; reflexivity); try reflexivity.
  now destruct (H s).
Qed.

Lemma validateMessage_string (s : jsstring) :
  validateMessage (Str s) =
    if (List.length s =? 0)%nat then required
    else if (List.length (JsString.trim s) =? 0)%nat then empty
    else if (2000 <? List.length s)%nat then too_long
    else accepted.
Proof. destruct s; reflexivity. Qed.

Lemma length_zero_iff (s : jsstring) : (List.length s =? 0)%nat = true <-> s = [].
Proof. destruct s; simpl; split; congruence. Qed.

(** C5: a message that is missing, not a string, or made of white space
    only is rejected at once with [valid = false] and an error message;
    [sendMessage] on such a text issues no request and leaves the session
    as it was. *)
Theorem blank_message_rejected (message : value) :
  (forall s, message = Str s -> forallb JsString.is_white_space s = true) ->
  valid (validateMessage message) = false
  /\ (validateMessage message = required \/ validateMessage message = empty)
  /\ (exists e, error (validateMessage message) = Some e)
  /\ (forall s a, message = Str s -> DebateApp.sendMessage s a = a).
Proof.
  intros Hblank.
  assert (Hcases : validateMessage message = required
                   \/ validateMessage message = empty).
  { destruct message as [|[| | |s|]|[|]];
      try (left; apply validateMessage_not_string; discriminate).
    rewrite validateMessage_string.
    destruct (List.length s =? 0)%nat; [now left|].
    rewrite (trim_blank s (Hblank s eq_refl)). now right. }
  split; [destruct Hcases as [-> | ->]; reflexivity|].
  split; [exact Hcases|].
  split; [destruct Hcases as [-> | ->]; eexists; reflexivity|].
  intros s a ->. unfold DebateApp.sendMessage.
  now rewrite (trim_blank s (Hblank s eq_refl)).
Qed.

Lemma blank_message_rejected_witness :
  validateMessage (Str (js "   ")) = empty
  /\ valid (validateMessage (Str (js "   "))) = false
  /\ forall a, DebateApp.sendMessage (js "   ") a = a.
Proof.
  assert (H : forall s, Str (js "   ") = Str s ->
                forallb JsString.is_white_space s = true).
  { intros s E. injection E as <-. reflexivity. }
  destruct (blank_message_rejected (Str (js "   ")) H) as (Hv & _ & _ & Hs).
  split; [reflexivity|]. split; [exact Hv|].
  intros a. now apply Hs.
Defined.

(** C8, as the code has it: a message is accepted exactly when it is a
    string whose trimmed form is not empty and whose length is at most
    2000; a string longer than 2000 is always rejected, with the error
    "Message is too long (max 2000 characters)" when its trimmed form is
    not empty and with "Message cannot be empty" when it is. *)
Theorem validateMessage_accepts (message : value) :
  (valid (validateMessage message) = true <->
     exists s, message = Str s /\ JsString.trim s <> []
               /\ (List.length s <= 2000)%nat)
  /\ (forall s, message = Str s -> (2000 < List.length s)%nat ->
        valid (validateMessage message) = false
        /\ (JsString.trim s <> [] -> validateMessage message = too_long)
        /\ (JsString.trim s = [] -> validateMessage message = empty)).
Proof.
  split.
  - split.
    + intros Hv. destruct message as [|[| | |s|]|[|]];
        try (rewrite validateMessage_not_string in Hv by discriminate;
             discriminate Hv).
      exists s. rewrite validateMessage_string in Hv.
      destruct (List.length s =? 0)%nat; [discriminate|].
      destruct (List.length (JsString.trim s) =? 0)%nat eqn:Ht; [discriminate|].
      destruct (2000 <? List.length s)%nat eqn:Hl; [discriminate|].
      apply Nat.ltb_ge in Hl. repeat split; [|exact Hl].
      intros E. rewrite E in Ht. discriminate.
    + intros (s & -> & Ht & Hl). rewrite validateMessage_string.
      destruct (List.length s =? 0)%nat eqn:H0.
      { apply length_zero_iff in H0. subst s. now destruct Ht. }
      destruct (List.length (JsString.trim s) =? 0)%nat eqn:H1.
      { apply length_zero_iff in H1. contradiction. }
      apply Nat.ltb_ge in Hl. now rewrite Hl.
  - intros s -> Hl. rewrite validateMessage_string.
    destruct (List.length s =? 0)%nat eqn:H0.
    { apply length_zero_iff in H0. subst s. simpl in Hl. lia. }
    apply Nat.ltb_lt in Hl. rewrite Hl.
    destruct (List.length (JsString.trim s) =? 0)%nat eqn:H1.
    + apply length_zero_iff in H1. repeat split; try reflexivity.
      intros Hn. contradiction.
    + repeat split; try reflexivity.
      intros E. rewrite E in H1. discriminate.
Qed.

Lemma validateMessage_accepts_witness :
  valid (validateMessage (Str (js "Schools should ban homework."))) = true
  /\ validateMessage (Str (repeat 97%N 2001)) = too_long.
Proof.
  split.
  - apply (proj1 (validateMessage_accepts _)).
    exists (js "Schools should ban homework.").
    repeat split; [discriminate | vm_compute; lia].
  - apply (proj2 (validateMessage_accepts (Str (repeat 97%N 2001)))
             (repeat 97%N 2001) eq_refl).
    + rewrite repeat_length. lia.
    + vm_compute. discriminate.
Defined.

(** C8 as stated fails: 2001 spaces are longer than 2000 characters and
    are rejected with "Message cannot be empty", not with the length
    error. *)
Lemma long_blank_message_is_empty_error :
  (2000 < List.length (repeat 32%N 2001))%nat
  /\ validateMessage (Str (repeat 32%N 2001)) = empty
  /\ error (validateMessage (Str (repeat 32%N 2001)))
     <> Some (js "Message is too long (max 2000 characters)").
Proof.
  split; [rewrite repeat_length; lia|].
  assert (E : validateMessage (Str (repeat 32%N 2001)) = empty)
    by (vm_compute; reflexivity).
  split; [exact E|]. rewrite E. discriminate.
Qed.

(** ** The phase of a session *)

Import PhaseStateMachine.

Lemma apply_cases (m : nat) (s : session) (a : action) :
  phase_of (apply m s a) = phase_of s
  \/ phase_of (apply m s a) = next (phase_of s)
  \/ (a = End_ /\ phase_of s <> complete
      /\ phase_of (apply m s a) = evaluation).
Proof.
  unfold apply, step.
  destruct a, (phase_of s) eqn:Hp; cbn;
    repeat match goal with
           | |- context [if ?c then _ else _] => destruct c
           end; cbn; rewrite ?Hp; auto;
    right; right; repeat split; congruence.
Qed.

Lemma rank_next (p : phase) : (rank p <= rank (next p))%nat.
Proof. destruct p; simpl; lia. Qed.

Lemma apply_forward (m : nat) (s : session) (a : action) :
  (rank (phase_of s) <= rank (phase_of (apply m s a)))%nat.
Proof.
  destruct (apply_cases m s a) as [E | [E | (_ & Hn & E)]]; rewrite E.
  - lia.
  - apply rank_next.
  - destruct (phase_of s); simpl; try lia. now destruct Hn.
Qed.

Lemma run_forward (m : nat) (actions : list action) :
  forall s, (rank (phase_of s) <= rank (phase_of (run m s actions)))%nat.
Proof.
  induction actions as [|a rest IH]; intros s; simpl; [lia|].
  etransitivity; [apply (apply_forward m s a)|]. apply IH.
Qed.

Lemma phaseMap_keys (k : jsstring) :
  (exists label, own phaseMap k = Some label) <-> exists p, k = phase_name p.
Proof.
  split.
  - intros [label H]. unfold phaseMap, own in H.
    repeat match type of H with
           | (if JsString.eqb ?x k then _ else _) = _ =>
               let E := fresh "E" in
               destruct (JsString.eqb x k) eqn:E;
               [apply eqb_eq in E; clear H | ]
           end; try discriminate.
    + now exists setup.
    + now exists opening.
    + now exists rebuttal.
    + now exists closing.
    + now exists evaluation.
    + now exists complete.
  - intros [p ->]. destruct p; eexists; reflexivity.
Qed.

(** C1: the phase of a session only moves forward along setup, opening,
    rebuttal, closing, evaluation, complete, or jumps to evaluation on an
    "end" action; no sequence of actions, however it is continued, brings
    an earlier phase back; the phases are these six, which are also exactly the phases [formatPhase]
    has a label for. *)
Theorem phase_only_moves_forward (m : nat) (s : session) (actions : list action) :
  (rank (phase_of s) <= rank (phase_of (run m s actions)))%nat
  /\ (forall later,
        (rank (phase_of (run m s actions))
         <= rank (phase_of (run m s (actions ++ later))))%nat)
  /\ (forall a,
        phase_of (apply m s a) = phase_of s
        \/ phase_of (apply m s a) = next (phase_of s)
        \/ (a = End_ /\ phase_of s <> complete
            /\ phase_of (apply m s a) = evaluation))
  /\ (forall p : phase,
        In p [setup; opening; rebuttal; closing; evaluation; complete])
  /\ (forall k, (exists label, own phaseMap k = Some label)
                <-> exists p, k = phase_name p)
  /\ (forall p, exists label,
        formatPhase (Str (phase_name p)) = Return (Str label)).
Proof.
  split; [apply run_forward|].
  split; [intros later; unfold run; rewrite fold_left_app; apply run_forward|].
  split; [apply apply_cases|].
  split; [intros p; destruct p; simpl; auto 10|].
  split; [apply phaseMap_keys|].
  intros p; destruct p; eexists; reflexivity.
Qed.

(** ** Property reads *)

Lemma get_returns (v : value) (k : jsstring) :
  truthy v = true -> exists x, get v k = Return x.
Proof.
  intros Hv. destruct v as [|[| | | |props]|[n|]]; try discriminate Hv;
    cbn [get]; eauto.
  - destruct (own props k); eauto.
  - destruct (JsString.eqb k (js "name")); eauto.
  - destruct (JsString.eqb k (js "__proto__")); eauto.
Qed.

Lemma member_read (v : value) (k : string) :
  truthy v = true -> member v k = Return (read v k).
Proof.
  intros Hv. unfold read.
  destruct (get_returns v (js k) Hv) as [x Hx].
  unfold member. now rewrite Hx.
Qed.

Lemma member_read_data (j : json) (k : string) :
  j <> JNull -> member (Data j) k = Return (read (Data j) k).
Proof.
  intros Hj. unfold read, member.
  destruct j as [| | | |props]; cbn [get]; try reflexivity.
  - now destruct Hj.
  - now destruct (own props (js k)).
Qed.

Lemma or_else_truthy (a b : value) :
  truthy b = true -> truthy (a ||| b) = true.
Proof. intros Hb. unfold or_else. now destruct (truthy a) eqn:Ha. Qed.

Lemma or_else_falsy (a b : value) : truthy a = false -> a ||| b = b.
Proof. intros Ha. unfold or_else. now rewrite Ha. Qed.

Lemma or_else_keeps (a b : value) : truthy a = true -> a ||| b = a.
Proof. intros Ha. unfold or_else. now rewrite Ha. Qed.

Lemma table_get (table : list (jsstring * json)) (k : jsstring) :
  get (Data (JObj table)) k =
    Return (match own table k with
            | Some j => Data j
            | None => inherited k
            end).
Proof. cbn [get]. now destruct (own table k). Qed.

Lemma own_In (props : list (jsstring * json)) (k : jsstring) (j : json) :
  own props k = Some j -> In (k, j) props.
Proof.
  induction props as [|[k' j'] rest IH]; simpl; [discriminate|].
  destruct (JsString.eqb k' k) eqn:E.
  - intros H. injection H as ->. apply eqb_eq in E. subst. now left.
  - intros H. right. now apply IH.
Qed.


Lemma lookup_convertible (table : list (jsstring * json)) (x : value) :
  convertible x = true ->
  exists key, ToString x = Return key
    /\ lookup table x =
         Return (match key with
                 | Chars k => match own table k with
                              | Some j => Data j
                              | None => inherited k
                              end
                 | NumberText _ => Undefined
                 end).
Proof.
  unfold convertible, lookup. destruct (ToString x) as [key|e]; [|discriminate].
  intros _. exists key. split; [reflexivity|]. cbn [bind].
  destruct key; [apply table_get | reflexivity].
Qed.

Lemma lookup_throws (table : list (jsstring * json)) (x : value) :
  convertible x = false -> lookup table x = Throw TypeError.
Proof.
  unfold convertible, lookup.
  destruct x as [|[| | | |props]|[n|]]; cbn [ToString]; try discriminate.
  destruct (own props (js "toString")); [reflexivity | discriminate].
Qed.

(** ** extractAgentInfo *)

Lemma moderator_entry :
  lookup agentMap (Str (js "moderator")) = Return moderator
  /\ truthy moderator = true.
Proof. split; reflexivity. Qed.

Lemma extractAgentInfo_falsy (response : value) :
  truthy response = false -> extractAgentInfo response = Return None.
Proof. intros H. unfold extractAgentInfo. now rewrite H. Qed.

Lemma extractAgentInfo_truthy (response found : value) :
  truthy response = true ->
  lookup agentMap (agentName_of response) = Return found ->
  extractAgentInfo response =
    Return (Some {| name := read (found ||| moderator) "name";
                    emoji := read (found ||| moderator) "emoji";
                    role := read (found ||| moderator) "role";
                    confidence := read response "confidence" ||| Num 0;
                    reasoning := read response "reasoning" ||| Str (js "Processing...");
                    metadata := read response "metadata" ||| Data (JObj []) |}).
Proof.
  intros Hr Hfound. unfold extractAgentInfo. rewrite Hr. cbn [negb].
  rewrite !(member_read response _ Hr). cbn [bind].
  fold (agentName_of response). rewrite Hfound. cbn [bind].
  rewrite (proj1 moderator_entry). cbn [bind].
  assert (Ht : truthy (found ||| moderator) = true)
    by (apply or_else_truthy, moderator_entry).
  rewrite !(member_read _ _ Ht). reflexivity.
Qed.

Lemma extractAgentInfo_throws (response : value) :
  truthy response = true -> convertible (agentName_of response) = false ->
  extractAgentInfo response = Throw TypeError.
Proof.
  intros Hr Hc. unfold extractAgentInfo. rewrite Hr. cbn [negb].
  rewrite (member_read response _ Hr). cbn [bind].
  fold (agentName_of response).
  now rewrite (lookup_throws agentMap _ Hc).
Qed.

(** The result is null exactly for a falsy response. *)
Lemma extractAgentInfo_null_iff (response : value) :
  extractAgentInfo response = Return None <-> truthy response = false.
Proof.
  split; [|apply extractAgentInfo_falsy].
  destruct (truthy response) eqn:Hr; [|reflexivity].
  destruct (convertible (agentName_of response)) eqn:Hc.
  - destruct (lookup_convertible agentMap _ Hc) as (key & _ & Hl).
    rewrite (extractAgentInfo_truthy _ _ Hr Hl). discriminate.
  - rewrite (extractAgentInfo_throws _ Hr Hc). discriminate.
Qed.

Lemma extractAgentInfo_returns (response : value) :
  truthy response = true -> convertible (agentName_of response) = true ->
  exists info,
    extractAgentInfo response = Return (Some info)
    /\ confidence info = (read response "confidence" ||| Num 0)
    /\ reasoning info = (read response "reasoning" ||| Str (js "Processing..."))
    /\ metadata info = (read response "metadata" ||| Data (JObj [])).
Proof.
  intros Hr Hc.
  destruct (lookup_convertible agentMap _ Hc) as (key & _ & Hl).
  eexists. split; [apply (extractAgentInfo_truthy _ _ Hr Hl)|].
  repeat split.
Qed.

Lemma Return_inj {A} (a b : A) : Return a = Return b -> a = b.
Proof. intros H. now injection H. Qed.

Lemma agent_fields_have_text (found : value) :
  (exists k entry, In (k, entry) agentMap /\ found = Data entry)
  \/ (exists k, found = inherited k)
  \/ found = Undefined ->
  convertible (read (found ||| moderator) "name") = true
  /\ convertible (read (found ||| moderator) "role") = true
  /\ convertible (read (found ||| moderator) "emoji") = true.
Proof.
  intros [(k & entry & Hin & ->) | [(k & ->) | ->]].
  - unfold agentMap in Hin. cbn [In] in Hin.
    repeat (destruct Hin as [Hin | Hin];
            [injection Hin as _ <-; repeat split; reflexivity|]).
    destruct Hin.
  - unfold inherited.
    destruct (JsString.eqb k (js "__proto__")); [repeat split; reflexivity|].
    destruct (JsString.eqb k (js "constructor")); [repeat split; reflexivity|].
    destruct (existsb (JsString.eqb k) Object_prototype_functions);
      repeat split; reflexivity.
  - repeat split; reflexivity.
Qed.

Lemma Some_inj {A} (a b : A) : Some a = Some b -> a = b.
Proof. intros H. now injection H. Qed.

Lemma extractAgentInfo_fields_have_text (agentInfo : value) (info : agent_info) :
  extractAgentInfo agentInfo = Return (Some info) ->
  convertible (name info) = true
  /\ convertible (role info) = true
  /\ convertible (emoji info) = true.
Proof.
  intros He.
  destruct (truthy agentInfo) eqn:Ht;
    [|rewrite (extractAgentInfo_falsy agentInfo Ht) in He; discriminate He].
  destruct (convertible (agentName_of agentInfo)) eqn:Hc;
    [|rewrite (extractAgentInfo_throws agentInfo Ht Hc) in He; discriminate He].
  destruct (lookup_convertible agentMap _ Hc) as (key & _ & Hl).
  match type of Hl with
  | _ = Return ?x => set (found := x) in Hl
  end.
  assert (Hfound : (exists k entry, In (k, entry) agentMap /\ found = Data entry)
                   \/ (exists k, found = inherited k)
                   \/ found = Undefined).
  { unfold found. destruct key as [k | f]; [|now right; right].
    destruct (own agentMap k) as [entry|] eqn:Hown.
    - left. exists k, entry. split; [now apply own_In | reflexivity].
    - right. left. now exists k. }
  clearbody found.
  rewrite (extractAgentInfo_truthy agentInfo found Ht Hl) in He.
  apply Return_inj, Some_inj in He. rewrite <- He.
  cbn [name role emoji].
  now apply agent_fields_have_text.
Qed.

Lemma falsy_convertible (v : value) : truthy v = false -> convertible v = true.
Proof.
  destruct v as [|[| | | |props]|[n|]]; try reflexivity; discriminate.
Qed.

Lemma convertible_or_else (a : value) (s : jsstring) :
  convertible (a ||| Str s) = convertible a.
Proof.
  unfold or_else. destruct (truthy a) eqn:Ha; [reflexivity|].
  now rewrite (falsy_convertible a Ha).
Qed.

Lemma convertible_or_zero (a : value) : convertible (a ||| Num 0) = convertible a.
Proof.
  unfold or_else. destruct (truthy a) eqn:Ha; [reflexivity|].
  now rewrite (falsy_convertible a Ha).
Qed.

(** The panel as [updateAgentInfo] leaves it, write by write: name and
    role always, the reasoning if it has a text, then the meter if the
    confidence has a primitive value, then the avatar. *)
Lemma updateAgentInfo_result (agentInfo : value) (info : agent_info)
    (v : UIManagerView.view) :
  extractAgentInfo agentInfo = Return (Some info) ->
  UIManagerView.updateAgentInfo agentInfo v =
    if convertible (reasoning info) then
      if convertible (confidence info) then
        (Prog.Done tt,
         UIManagerView.with_agentPanel
           {| UIManager.agentName := name info;
              UIManager.agentRole := role info;
              UIManager.agentReasoning := reasoning info;
              UIManager.meter := confidence info;
              UIManager.avatar := emoji info |} v)
      else
        (Prog.Raised (Prog.Native TypeError),
         UIManagerView.with_agentPanel
           {| UIManager.agentName := name info;
              UIManager.agentRole := role info;
              UIManager.agentReasoning := reasoning info;
              UIManager.meter := UIManager.meter (UIManagerView.agentPanel v);
              UIManager.avatar := UIManager.avatar (UIManagerView.agentPanel v) |} v)
    else
      (Prog.Raised (Prog.Native TypeError),
       UIManagerView.with_agentPanel
         {| UIManager.agentName := name info;
            UIManager.agentRole := role info;
            UIManager.agentReasoning :=
              UIManager.agentReasoning (UIManagerView.agentPanel v);
            UIManager.meter := UIManager.meter (UIManagerView.agentPanel v);
            UIManager.avatar := UIManager.avatar (UIManagerView.agentPanel v) |} v).
Proof.
  intros He.
  destruct (extractAgentInfo_fields_have_text agentInfo info He) as (Hn & Hr & Hm).
  unfold UIManagerView.updateAgentInfo, Prog.bind, Prog.lift. rewrite He.
  unfold UIManagerView.textContent, Prog.bind, Prog.modify, Prog.throw.
  rewrite Hn, Hr, Hm.
  destruct (convertible (reasoning info)); [|reflexivity].
  destruct (convertible (confidence info)); reflexivity.
Qed.

(** C2, as the code has it: when the confidence of a reply is absent or
    otherwise falsy (null, 0, NaN, the empty text, false), the turn gets
    confidence 0; any other value, a text that is no number or a number
    outside [0,1] included, is passed on unchanged; the metadata is the
    reply's own, or an empty object, and no warning is added; whatever
    the confidence is, extractAgentInfo returns.  The panel's meter is
    drawn from that value, with one exception: a confidence that is an
    object without a primitive value makes updateAgentInfo throw a
    TypeError where it computes the percent, and the meter stays as it
    was. *)
Theorem confidence_defaults_to_zero (response : value) (v : UIManagerView.view) :
  truthy response = true ->
  convertible (agentName_of response) = true ->
  exists info,
    extractAgentInfo response = Return (Some info)
    /\ (truthy (read response "confidence") = false -> confidence info = Num 0)
    /\ (truthy (read response "confidence") = true ->
        confidence info = read response "confidence")
    /\ metadata info = (read response "metadata" ||| Data (JObj []))
    /\ (truthy (read response "metadata") = false ->
        read (metadata info) "warning" = Undefined)
    /\ (convertible (read response "reasoning") = true ->
        (convertible (read response "confidence") = true ->
         fst (UIManagerView.updateAgentInfo response v) = Prog.Done tt
         /\ UIManager.meter
              (UIManagerView.agentPanel
                 (Prog.exec (UIManagerView.updateAgentInfo response) v))
            = confidence info)
        /\ (convertible (read response "confidence") = false ->
            fst (UIManagerView.updateAgentInfo response v)
            = Prog.Raised (Prog.Native TypeError)
            /\ UIManager.meter
                 (UIManagerView.agentPanel
                    (Prog.exec (UIManagerView.updateAgentInfo response) v))
               = UIManager.meter (UIManagerView.agentPanel v)
            /\ UIManager.agentReasoning
                 (UIManagerView.agentPanel
                    (Prog.exec (UIManagerView.updateAgentInfo response) v))
               = reasoning info)).
Proof.
  intros Hr Hc.
  destruct (extractAgentInfo_returns response Hr Hc)
    as (info & He & Hconf & Hreason & Hm).
  exists info. split; [exact He|].
  split; [intros Hf; now rewrite Hconf, or_else_falsy|].
  split; [intros Ht; now rewrite Hconf, or_else_keeps|].
  split; [exact Hm|].
  split; [intros Hf; rewrite Hm, or_else_falsy by exact Hf; reflexivity|].
  intros Htext. unfold Prog.exec.
  rewrite (updateAgentInfo_result response info v He).
  rewrite Hreason, convertible_or_else, Htext, Hconf, convertible_or_zero.
  split; intros Hnum; rewrite Hnum; cbn [fst snd]; repeat split.
Qed.

Lemma confidence_defaults_to_zero_witness :
  exists info,
    extractAgentInfo (Data (JObj [ (js "agent_name", JStr (js "coach"));
                                   (js "content", JStr (js "Lead with evidence.")) ]))
      = Return (Some info)
    /\ confidence info = Num 0
    /\ UIManager.meter
         (UIManagerView.agentPanel
            (Prog.exec
               (UIManagerView.updateAgentInfo
                  (Data (JObj [ (js "agent_name", JStr (js "coach"));
                                (js "content", JStr (js "Lead with evidence.")) ])))
               UIManagerView.blank))
       = confidence info.
Proof.
  destruct (confidence_defaults_to_zero
              (Data (JObj [ (js "agent_name", JStr (js "coach"));
                            (js "content", JStr (js "Lead with evidence.")) ]))
              UIManagerView.blank eq_refl eq_refl)
    as (info & He & H0 & _ & _ & _ & Hshown).
  exists info. split; [exact He|]. split; [apply H0; reflexivity|].
  apply (proj1 (Hshown eq_refl) eq_refl).
Defined.

(** C2 as stated fails: a reply whose confidence is the text "high" is
    shown with that text as its confidence, not 0.5, and a reply without
    a confidence is shown with 0; neither gets a warning in its
    metadata. *)
Lemma unparsable_confidence_is_kept :
  (exists info,
     extractAgentInfo (Data (JObj [ (js "agent_name", JStr (js "debater_for"));
                                    (js "content", JStr (js "Consider the cost."));
                                    (js "confidence", JStr (js "high")) ]))
       = Return (Some info)
     /\ confidence info = Str (js "high")
     /\ confidence info <> Num 0.5
     /\ read (metadata info) "warning" = Undefined)
  /\ (exists info,
        extractAgentInfo (Data (JObj [ (js "agent_name", JStr (js "debater_for"));
                                       (js "content", JStr (js "Consider the cost.")) ]))
          = Return (Some info)
        /\ confidence info = Num 0
        /\ confidence info <> Num 0.5
        /\ read (metadata info) "warning" = Undefined).
Proof.
  split; eexists; (split; [vm_compute; reflexivity|]); cbn [confidence metadata];
    repeat split; discriminate.
Qed.

(** C3, as the code has it: the confidence attached to a displayed turn is
    the reply's own confidence, or 0 when that is absent or falsy; it lies
    in [0,1] whenever the reply's confidence is absent, falsy or itself a
    number in [0,1].  The panel's meter is drawn from that value when the
    reasoning of the reply has a text; when the reasoning is an object
    without a text, updateAgentInfo throws a TypeError before it reaches
    the meter, which stays as it was. *)
Theorem confidence_in_range_when_sent_so (response : value) (v : UIManagerView.view) :
  truthy response = true ->
  convertible (agentName_of response) = true ->
  truthy (read response "confidence") = false
  \/ in_unit_interval (read response "confidence") = true ->
  exists info,
    extractAgentInfo response = Return (Some info)
    /\ confidence info = (read response "confidence" ||| Num 0)
    /\ in_unit_interval (confidence info) = true
    /\ (convertible (read response "reasoning") = true ->
        fst (UIManagerView.updateAgentInfo response v) = Prog.Done tt
        /\ UIManager.meter
             (UIManagerView.agentPanel
                (Prog.exec (UIManagerView.updateAgentInfo response) v))
           = confidence info)
    /\ (convertible (read response "reasoning") = false ->
        fst (UIManagerView.updateAgentInfo response v)
        = Prog.Raised (Prog.Native TypeError)
        /\ UIManager.meter
             (UIManagerView.agentPanel
                (Prog.exec (UIManagerView.updateAgentInfo response) v))
           = UIManager.meter (UIManagerView.agentPanel v)).
Proof.
  intros Hr Hc Hrange.
  destruct (extractAgentInfo_returns response Hr Hc)
    as (info & He & Hconf & Hreason & _).
  assert (Hin : in_unit_interval (confidence info) = true).
  { rewrite Hconf. unfold or_else.
    destruct (truthy (read response "confidence")) eqn:Ht; [|reflexivity].
    destruct Hrange as [Hf | Hin]; [discriminate | exact Hin]. }
  assert (Hnum : convertible (confidence info) = true).
  { destruct (confidence info) as [|[| | | |props]|[n|]]; try reflexivity;
      discriminate Hin. }
  exists info. split; [exact He|]. split; [exact Hconf|]. split; [exact Hin|].
  unfold Prog.exec. rewrite (updateAgentInfo_result response info v He).
  rewrite Hreason, convertible_or_else, Hnum.
  split; intros Htext; rewrite Htext; cbn [fst snd]; split; reflexivity.
Qed.

Lemma confidence_in_range_when_sent_so_witness :
  exists info,
    extractAgentInfo (Data (JObj [ (js "agent_name", JStr (js "debater_against"));
                                   (js "confidence", JNum 0.75) ]))
      = Return (Some info)
    /\ in_unit_interval (confidence info) = true
    /\ UIManager.meter
         (UIManagerView.agentPanel
            (Prog.exec
               (UIManagerView.updateAgentInfo
                  (Data (JObj [ (js "agent_name", JStr (js "debater_against"));
                                (js "confidence", JNum 0.75) ])))
               UIManagerView.blank))
       = confidence info.
Proof.
  destruct (confidence_in_range_when_sent_so
              (Data (JObj [ (js "agent_name", JStr (js "debater_against"));
                            (js "confidence", JNum 0.75) ]))
              UIManagerView.blank
              eq_refl eq_refl (or_intror eq_refl))
    as (info & He & _ & Hin & Hshown & _).
  exists info. split; [exact He|]. split; [exact Hin|].
  apply (proj2 (Hshown eq_refl)).
Defined.

(** C3 as stated fails: a reply with confidence 1.5 is displayed with
    confidence 1.5, outside [0,1], and the meter is drawn from it. *)
Lemma confidence_above_one_is_kept :
  exists info,
    extractAgentInfo (Data (JObj [ (js "agent_name", JStr (js "debater_against"));
                                   (js "confidence", JNum 1.5) ]))
      = Return (Some info)
    /\ confidence info = Num 1.5
    /\ in_unit_interval (confidence info) = false
    /\ fst (UIManagerView.updateAgentInfo
              (Data (JObj [ (js "agent_name", JStr (js "debater_against"));
                            (js "confidence", JNum 1.5) ]))
              UIManagerView.blank) = Prog.Done tt
    /\ UIManager.meter
         (UIManagerView.agentPanel
            (Prog.exec
               (UIManagerView.updateAgentInfo
                  (Data (JObj [ (js "agent_name", JStr (js "debater_against"));
                                (js "confidence", JNum 1.5) ])))
               UIManagerView.blank)) = Num 1.5.
Proof.
  eexists. split; [vm_compute; reflexivity|].
  split; [reflexivity|]. split; [reflexivity|].
  split; vm_compute; reflexivity.
Qed.

(** C6, as the code has it: when the reasoning of a reply is absent (or
    falsy), the displayed reasoning is exactly "Processing...", and
    extractAgentInfo returns as usual. *)
Theorem reasoning_defaults_to_processing (response : value) :
  truthy response = true ->
  convertible (agentName_of response) = true ->
  truthy (read response "reasoning") = false ->
  exists info,
    extractAgentInfo response = Return (Some info)
    /\ reasoning info = Str (js "Processing...").
Proof.
  intros Hr Hc Hf.
  destruct (extractAgentInfo_returns response Hr Hc) as (info & He & _ & Hreason & _).
  exists info. split; [exact He|]. now rewrite Hreason, or_else_falsy.
Qed.

Lemma reasoning_defaults_to_processing_witness :
  exists info,
    extractAgentInfo (Data (JObj [ (js "agent_name", JStr (js "moderator"));
                                   (js "confidence", JNum 0.875) ]))
      = Return (Some info)
    /\ reasoning info = Str (js "Processing...").
Proof.
  apply (reasoning_defaults_to_processing
           (Data (JObj [ (js "agent_name", JStr (js "moderator"));
                         (js "confidence", JNum 0.875) ]))
           eq_refl eq_refl eq_refl).
Defined.

(** C6 as stated fails: for a reply without a reasoning the displayed
    reasoning is "Processing...", not the empty string. *)
Lemma absent_reasoning_is_not_empty :
  exists info,
    extractAgentInfo (Data (JObj [ (js "agent_name", JStr (js "moderator"));
                                   (js "confidence", JNum 0.875) ]))
      = Return (Some info)
    /\ read (Data (JObj [ (js "agent_name", JStr (js "moderator"));
                          (js "confidence", JNum 0.875) ])) "reasoning" = Undefined
    /\ reasoning info = Str (js "Processing...")
    /\ reasoning info <> Str (js "").
Proof.
  eexists. split; [vm_compute; reflexivity|].
  repeat split. discriminate.
Qed.









(** C9, evaluated where the code departs from it: the agent name
    "constructor" is none of the known agents, yet the turn is not shown
    as the moderator: the lookup finds the inherited constructor, the name
    shown is "Object", emoji and role are undefined.  An agent name that
    has no text makes extractAgentInfo throw. *)
Theorem inherited_name_is_not_moderator :
  ~ In (js "constructor") known_agents
  /\ truthy (Data (JObj [ (js "agent_name", JStr (js "constructor")) ])) = true
  /\ extractAgentInfo (Data (JObj [ (js "agent_name", JStr (js "constructor")) ]))
     = Return (Some {| name := Str (js "Object");
                       emoji := Undefined;
                       role := Undefined;
                       confidence := Num 0;
                       reasoning := Str (js "Processing...");
                       metadata := Data (JObj []) |})
  /\ read moderator "name" = Str (js "Moderator")
  /\ extractAgentInfo
       (Data (JObj [ (js "agent_name", JObj [ (js "toString", JNum 1) ]) ]))
     = Throw TypeError.
Proof.
  split; [intros H; vm_compute in H; intuition discriminate|].
  repeat split.
Qed.

(** ** The five operations *)

Section Requests.

Variable fetch : request -> outcome response.
Variable apiUrl : jsstring.






End Requests.



(** ** The phase machine at work *)

Example a_debate_runs_to_completion :
  run default_minimum_rounds {| phase_of := setup; current_round := 0 |}
    [ Create; Exchange; Advance; Exchange; Exchange; Advance; End_; Report ]
  = {| phase_of := complete; current_round := 3 |}.
Proof. reflexivity. Qed.

Example end_in_opening_jumps_to_evaluation :
  run default_minimum_rounds {| phase_of := opening; current_round := 0 |}
    [ End_; Report ]
  = {| phase_of := complete; current_round := 0 |}.
Proof. reflexivity. Qed.

Example early_advance_is_a_violation :
  step default_minimum_rounds {| phase_of := rebuttal; current_round := 2 |} Advance
  = PhaseViolation.
Proof. reflexivity. Qed.

(* ================================================================== *)
(** * Further properties of the client *)

(** ** Lookups in the tables of the source *)

Lemma lookup_plain_missing (table : list (jsstring * json)) (x : value) (key : text) :
  ToString x = Return key ->
  plain_name key = true ->
  (forall k, key = Chars k -> own table k = None) ->
  exists found, lookup table x = Return found /\ truthy found = false.
Proof.
  intros Hkey Hplain Hmiss. unfold lookup. rewrite Hkey. cbn [Js.bind].
  destruct key as [k | f].
  - rewrite table_get, (Hmiss k eq_refl). eexists. split; [reflexivity|].
    cbn [plain_name] in Hplain. now apply negb_true_iff in Hplain.
  - eexists. split; reflexivity.
Qed.

Lemma lookup_own (table : list (jsstring * json)) (x : value) (k : jsstring) (j : json) :
  ToString x = Return (Chars k) ->
  own table k = Some j ->
  lookup table x = Return (Data j).
Proof.
  intros Hkey Hown. unfold lookup. rewrite Hkey. cbn [Js.bind].
  now rewrite table_get, Hown.
Qed.

Lemma eqb_sym_false (a b : jsstring) :
  JsString.eqb a b = false -> JsString.eqb b a = false.
Proof. rewrite !eqb_neq. intros H E. now apply H. Qed.

Lemma convertible_inherited (k : jsstring) : convertible (inherited k) = true.
Proof.
  unfold inherited.
  destruct (JsString.eqb k (js "__proto__")); [reflexivity|].
  destruct (JsString.eqb k (js "constructor")); [reflexivity|].
  now destruct (existsb (JsString.eqb k) Object_prototype_functions).
Qed.

(** X1: a phase that is not one of the six names, nor the name of an
    inherited property, is displayed as it is, whatever value it is; one
    of the six names is displayed as its label. *)
Theorem formatPhase_passes_unknown (phase : value) (key : text) :
  ToString phase = Return key ->
  (plain_name key = true ->
   (forall k, key = Chars k -> own phaseMap k = None) ->
   formatPhase phase = Return phase)
  /\ (forall k label, key = Chars k -> own phaseMap k = Some label ->
      formatPhase phase = Return (Data label)
      /\ exists p, k = PhaseStateMachine.phase_name p).
Proof.
  intros Hkey. split.
  - intros Hplain Hmiss.
    destruct (lookup_plain_missing phaseMap phase key Hkey Hplain Hmiss)
      as (found & Hl & Hf).
    unfold formatPhase. rewrite Hl. cbn [Js.bind].
    now rewrite (or_else_falsy _ _ Hf).
  - intros k label -> Hown.
    unfold formatPhase. rewrite (lookup_own phaseMap phase k label Hkey Hown).
    cbn [Js.bind]. split.
    + rewrite or_else_keeps; [reflexivity|].
      apply own_In in Hown. unfold phaseMap in Hown. cbn [In] in Hown.
      repeat (destruct Hown as [Hown | Hown];
              [injection Hown as _ <-; reflexivity|]).
      destruct Hown.
    + apply phaseMap_keys. now exists label.
Qed.

Lemma formatPhase_passes_unknown_witness :
  formatPhase (Str (js "paused")) = Return (Str (js "paused"))
  /\ formatPhase Undefined = Return Undefined.
Proof.
  split.
  - apply (proj1 (formatPhase_passes_unknown (Str (js "paused"))
                    (Chars (js "paused")) eq_refl)); [reflexivity|].
    intros k E. injection E as <-. reflexivity.
  - apply (proj1 (formatPhase_passes_unknown Undefined
                    (Chars (js "undefined")) eq_refl)); [reflexivity|].
    intros k E. injection E as <-. reflexivity.
Defined.

(** X2: the verdict of [validateMessage] is well formed for every value:
    a valid message comes without an error, an invalid one with exactly
    one of the three error texts. *)
Theorem validateMessage_verdict (message : value) :
  (valid (validateMessage message) = true <-> error (validateMessage message) = None)
  /\ (valid (validateMessage message) = false ->
      validateMessage message = required
      \/ validateMessage message = empty
      \/ validateMessage message = too_long)
  /\ (valid (validateMessage message) = true -> validateMessage message = accepted).
Proof.
  assert (H : validateMessage message = required
              \/ validateMessage message = empty
              \/ validateMessage message = too_long
              \/ validateMessage message = accepted).
  { destruct message as [|[| | |s|]|[|]];
      try (left; apply validateMessage_not_string; discriminate).
    rewrite validateMessage_string.
    destruct (List.length s =? 0)%nat; [now left|].
    destruct (List.length (JsString.trim s) =? 0)%nat; [now right; left|].
    destruct (2000 <? List.length s)%nat; [now right; right; left|].
    now right; right; right. }
  destruct H as [-> | [-> | [-> | ->]]]; cbn;
    repeat split; intros; try congruence; try discriminate; auto.
Qed.

(** ** truncateText at its edges *)

Lemma truncateText_length (text : jsstring) (maxLength : Z) :
  (3 <= maxLength)%Z ->
  (Z.of_nat (List.length (UIManager.truncateText (Some text) maxLength)) <= maxLength)%Z.
Proof.
  intros Hmax. unfold UIManager.truncateText.
  destruct text as [|c text]; [simpl; lia|]. cbn [truthy negb].
  destruct (Z.of_nat (List.length (c :: text)) <=? maxLength)%Z eqn:Hfit.
  - now apply Z.leb_le.
  - apply Z.leb_gt in Hfit.
    rewrite length_app, Nat2Z.inj_add, substring0_length by lia.
    change (List.length (js "...")) with 3%nat. lia.
Qed.

Lemma truncateText_short (text : jsstring) (maxLength : Z) :
  (Z.of_nat (List.length text) <= maxLength)%Z ->
  UIManager.truncateText (Some text) maxLength = text.
Proof.
  intros Hfit. unfold UIManager.truncateText.
  destruct text as [|c text]; [reflexivity|]. cbn [truthy negb].
  apply Z.leb_le in Hfit. now rewrite Hfit.
Qed.

(** X3: truncating twice changes nothing more: for a length limit of at
    least 3, [truncateText] applied to its own result returns it as it
    is. *)
Theorem truncateText_idempotent (text : jsstring) (maxLength : Z) :
  (3 <= maxLength)%Z ->
  UIManager.truncateText
    (Some (UIManager.truncateText (Some text) maxLength)) maxLength
  = UIManager.truncateText (Some text) maxLength.
Proof.
  intros Hmax. apply truncateText_short. now apply truncateText_length.
Qed.

Lemma truncateText_idempotent_witness :
  UIManager.truncateText
    (Some (UIManager.truncateText (Some (js "Should homework be banned?")) 12)) 12
  = js "Should ho...".
Proof.
  rewrite (truncateText_idempotent (js "Should homework be banned?") 12); [|lia].
  reflexivity.
Defined.

(** X4: below a length limit of 3 the limit is not kept: a non-empty text
    longer than the limit becomes exactly the three dots, which is longer
    than the limit. *)
Theorem truncateText_small_limit (text : jsstring) (maxLength : Z) :
  (maxLength < 3)%Z ->
  text <> [] ->
  (maxLength < Z.of_nat (List.length text))%Z ->
  UIManager.truncateText (Some text) maxLength = js "..."
  /\ (maxLength < Z.of_nat (List.length (UIManager.truncateText (Some text) maxLength)))%Z.
Proof.
  intros Hsmall Hne Hlong.
  assert (E : UIManager.truncateText (Some text) maxLength = js "...").
  { unfold UIManager.truncateText.
    destruct text as [|c text]; [now destruct Hne|]. cbn [truthy negb].
    apply Z.leb_gt in Hlong. rewrite Hlong.
    unfold JsString.substring0.
    replace (Z.to_nat (maxLength - 3)) with 0%nat by lia. reflexivity. }
  split; [exact E|]. rewrite E. change (List.length (js "...")) with 3%nat. lia.
Qed.

Lemma truncateText_small_limit_witness :
  UIManager.truncateText (Some (js "Tax")) 2 = js "...".
Proof.
  apply (truncateText_small_limit (js "Tax") 2); [lia | discriminate | simpl; lia].
Defined.

(** ** Emoji and icons *)

Import UIManagerView.

(** X5: the two agent tables agree: for every agent of [agentMap], the
    emoji that [getAgentEmoji] gives for the agent's display name is the
    emoji [extractAgentInfo] shows as its avatar. *)
Theorem getAgentEmoji_matches_agentMap (key : jsstring) (entry : json) :
  In (key, entry) agentMap ->
  getAgentEmoji (read (Data entry) "name") = Return (read (Data entry) "emoji")
  /\ truthy (read (Data entry) "emoji") = true.
Proof.
  unfold agentMap. cbn [In].
  intros H; repeat (destruct H as [H | H];
                    [injection H as _ <-; split; reflexivity|]).
  destruct H.
Qed.

Lemma getAgentEmoji_matches_agentMap_witness :
  getAgentEmoji (Str (js "Challenger")) = Return (Str [0xD83D; 0xDC4E]%N).
Proof.
  apply (getAgentEmoji_matches_agentMap (js "debater_against")
           (agent "Challenger" [0xD83D; 0xDC4E]%N "Challenging arguments")).
  do 4 right. left. reflexivity.
Defined.

Lemma getAgentEmoji_missing (agentName : value) (key : text) :
  ToString agentName = Return key ->
  plain_name key = true ->
  (forall k, key = Chars k -> own emojiMap k = None) ->
  getAgentEmoji agentName = Return (Str robot).
Proof.
  intros Hkey Hplain Hmiss.
  destruct (lookup_plain_missing emojiMap agentName key Hkey Hplain Hmiss)
    as (found & Hl & Hf).
  unfold getAgentEmoji. rewrite Hl. cbn [Js.bind].
  now rewrite (or_else_falsy _ _ Hf).
Qed.

(** X6: [getAgentEmoji] falls back to the robot for every name that is
    neither in its table nor an inherited property name; the keys of
    [agentMap], which the handlers pass as agent_name, are such names, so
    a chat badge made from a key shows the robot. *)
Theorem getAgentEmoji_falls_back (agentName : value) (key : text) :
  ToString agentName = Return key ->
  plain_name key = true ->
  ((forall k, key = Chars k -> own emojiMap k = None) ->
   getAgentEmoji agentName = Return (Str robot))
  /\ ((exists k, key = Chars k /\ In k known_agents) ->
      getAgentEmoji agentName = Return (Str robot)).
Proof.
  intros Hkey Hplain. split.
  - now apply getAgentEmoji_missing.
  - intros (k & -> & Hin).
    apply (getAgentEmoji_missing agentName (Chars k) Hkey Hplain).
    intros k' E. injection E as <-.
    unfold known_agents, agentMap in Hin; cbn [map fst In] in Hin.
    repeat (destruct Hin as [<- | Hin]; [reflexivity|]).
    destruct Hin.
Qed.

Lemma getAgentEmoji_falls_back_witness :
  getAgentEmoji (Str (js "debater_for")) = Return (Str robot).
Proof.
  apply (proj2 (getAgentEmoji_falls_back (Str (js "debater_for"))
                  (Chars (js "debater_for")) eq_refl eq_refl)).
  exists (js "debater_for"). split; [reflexivity|].
  do 3 right. left. reflexivity.
Defined.

(** X7: for every toast type that has a text and is not an inherited
    property name, [getToastIcon] returns one of the four icons, and the
    info icon unless the type is success, error or warning. *)
Theorem getToastIcon_is_an_icon (type : value) (key : text) :
  ToString type = Return key ->
  plain_name key = true ->
  (exists icon, getToastIcon type = Return (Data icon) /\ In icon (map snd icons))
  /\ ((forall k, key = Chars k ->
         k <> js "success" /\ k <> js "error" /\ k <> js "warning") ->
      getToastIcon type = Return (Str [0x2139; 0xFE0F]%N)).
Proof.
  intros Hkey Hplain.
  assert (Hinfo : member (Data (JObj icons)) "info" = Return (Str [0x2139; 0xFE0F]%N))
    by reflexivity.
  assert (Hmiss : (forall k, key = Chars k -> own icons k = None) ->
                  getToastIcon type = Return (Str [0x2139; 0xFE0F]%N)).
  { intros Hm.
    destruct (lookup_plain_missing icons type key Hkey Hplain Hm) as (found & Hl & Hf).
    unfold getToastIcon. rewrite Hl, Hinfo. cbn [Js.bind].
    now rewrite (or_else_falsy _ _ Hf). }
  split.
  - destruct key as [k | f].
    + destruct (own icons k) as [icon|] eqn:Hown.
      * exists icon. split.
        -- unfold getToastIcon.
           rewrite (lookup_own icons type k icon Hkey Hown), Hinfo. cbn [Js.bind].
           rewrite or_else_keeps; [reflexivity|].
           apply own_In in Hown. unfold icons in Hown. cbn [In] in Hown.
           repeat (destruct Hown as [Hown | Hown];
                   [injection Hown as _ <-; reflexivity|]).
           destruct Hown.
        -- apply own_In in Hown. now apply (in_map snd) in Hown.
      * eexists. split; [apply Hmiss; intros k' E; now injection E as <-|].
        do 3 right. left. reflexivity.
    + eexists. split; [apply Hmiss; intros k' E; discriminate E|].
      do 3 right. left. reflexivity.
  - intros Hother. destruct key as [k | f].
    + destruct (JsString.eqb k (js "info")) eqn:Ei.
      * apply eqb_eq in Ei. subst k. unfold getToastIcon.
        rewrite (lookup_own icons type (js "info") _ Hkey eq_refl), Hinfo.
        reflexivity.
      * apply Hmiss. intros k' E. injection E as <-.
        destruct (Hother k eq_refl) as (Hs & He & Hw).
        apply eqb_neq in Hs, He, Hw. unfold icons, own.
        rewrite (eqb_sym_false _ _ Hs), (eqb_sym_false _ _ He),
                (eqb_sym_false _ _ Hw), (eqb_sym_false _ _ Ei).
        reflexivity.
    + apply Hmiss. intros k E. discriminate E.
Qed.

Lemma getToastIcon_is_an_icon_witness :
  getToastIcon (Str (js "debug")) = Return (Str [0x2139; 0xFE0F]%N).
Proof.
  apply (proj2 (getToastIcon_is_an_icon (Str (js "debug")) (Chars (js "debug"))
                  eq_refl eq_refl)).
  intros k E. injection E as <-. repeat split; discriminate.
Defined.

(** ** The debate state and its statistics *)

Import DebateManagerStats.

Lemma formatPhase_convertible (phase shown : value) :
  formatPhase phase = Return shown -> convertible shown = true.
Proof.
  unfold formatPhase. intros H.
  destruct (convertible phase) eqn:Hc.
  - destruct (lookup_convertible phaseMap phase Hc) as (key & _ & Hl).
    rewrite Hl in H. cbn [Js.bind] in H. apply Return_inj in H. rewrite <- H.
    unfold or_else.
    destruct key as [k | f]; [|exact Hc].
    destruct (own phaseMap k) as [label|] eqn:Hown.
    + destruct (truthy (Data label)); [|exact Hc].
      apply own_In in Hown. unfold phaseMap in Hown. cbn [In] in Hown.
      repeat (destruct Hown as [Hown | Hown];
              [injection Hown as _ <-; reflexivity|]).
      destruct Hown.
    + destruct (truthy (inherited k)); [apply convertible_inherited | exact Hc].
  - rewrite (lookup_throws phaseMap phase Hc) in H. discriminate H.
Qed.

Lemma formatPhase_throws (phase : value) (e : exception) :
  formatPhase phase = Throw e -> convertible phase = false /\ e = TypeError.
Proof.
  unfold formatPhase. intros H.
  destruct (convertible phase) eqn:Hc.
  - destruct (lookup_convertible phaseMap phase Hc) as (key & _ & Hl).
    rewrite Hl in H. discriminate H.
  - rewrite (lookup_throws phaseMap phase Hc) in H. cbn [Js.bind] in H.
    injection H as <-. now split.
Qed.

Lemma topic_or_truthy (topic : primitive) (default : jsstring) :
  default <> [] ->
  truthy (value_of (topic_or topic default)) = true
  /\ ((truthy (value_of topic) = false /\ topic_or topic default = PStr default)
      \/ (truthy (value_of topic) = true /\ topic_or topic default = topic)).
Proof.
  intros Hd. unfold topic_or.
  destruct (truthy (value_of topic)) eqn:Ht; split; auto.
  destruct default; [now destruct Hd | reflexivity].
Qed.

Lemma formatDebateState_returns (state : option State.t) (f : formatted) :
  formatDebateState state = Return f ->
  truthy (value_of (topic f)) = true /\ convertible (phase f) = true.
Proof.
  destruct state as [st|]; cbn [formatDebateState]; [|discriminate].
  destruct (formatPhase (State.phase st)) as [shown|e] eqn:Hp; cbn [Js.bind];
    [|discriminate].
  intros H. apply Return_inj in H. rewrite <- H. cbn [topic phase]. split.
  - apply topic_or_truthy. discriminate.
  - now apply (formatPhase_convertible (State.phase st)).
Qed.

Lemma formatDebateState_throws (state : option State.t) (e : exception) :
  formatDebateState state = Throw e -> e = TypeError.
Proof.
  destruct state as [st|]; cbn [formatDebateState]; [|congruence].
  destruct (formatPhase (State.phase st)) as [shown|e'] eqn:Hp; cbn [Js.bind];
    [discriminate|].
  intros H. destruct (formatPhase_throws _ _ Hp) as [_ ->]. congruence.
Qed.



Lemma json_eq_null (j : json) : j = JNull \/ j <> JNull.
Proof. destruct j; [now left | right; discriminate ..]. Qed.

Lemma has_role_exclusive (m : value) (u a : bool) :
  has_role "user" m = Return u -> has_role "ai" m = Return a ->
  (u && a)%bool = false.
Proof.
  unfold has_role. destruct (member m "role") as [found|e]; cbn [Js.bind];
    [|discriminate].
  intros Hu Ha. injection Hu as <-. injection Ha as <-.
  destruct found as [|[| | |s|]|]; try reflexivity.
  destruct (JsString.eqb s (js "user")) eqn:E; [|reflexivity].
  apply eqb_eq in E. subst s. reflexivity.
Qed.

Lemma count_role_both (messages : list value) :
  forall u a,
    count_role "user" messages = Return u ->
    count_role "ai" messages = Return a ->
    (u + a <= List.length messages)%nat.
Proof.
  induction messages as [|m rest IH]; cbn [count_role List.length]; intros u a.
  - intros Hu Ha. injection Hu as <-. injection Ha as <-. lia.
  - destruct (has_role "user" m) as [ku|] eqn:Hku; cbn [Js.bind]; [|discriminate].
    destruct (has_role "ai" m) as [ka|] eqn:Hka; cbn [Js.bind]; [|discriminate].
    destruct (count_role "user" rest) as [nu|]; cbn [Js.bind]; [|discriminate].
    destruct (count_role "ai" rest) as [na|]; cbn [Js.bind]; [|discriminate].
    intros Hu Ha. injection Hu as <-. injection Ha as <-.
    specialize (IH nu na eq_refl eq_refl).
    pose proof (has_role_exclusive m ku ka Hku Hka) as Hx.
    destruct ku, ka; try discriminate Hx; lia.
Qed.

Lemma has_role_outcome (role : string) (m : value) :
  (exists keep, has_role role m = Return keep /\ m <> Undefined /\ m <> Null)
  \/ (has_role role m = Throw TypeError /\ (m = Undefined \/ m = Null)).
Proof.
  destruct m as [|j|b].
  - right. split; [reflexivity | now left].
  - destruct (json_eq_null j) as [-> | Hj].
    + right. split; [reflexivity | now right].
    + left. unfold has_role. rewrite (member_read_data j "role" Hj). cbn [Js.bind].
      eexists. split; [reflexivity|]. split; [discriminate|].
      intros E. apply Hj. now injection E.
  - left. unfold has_role. rewrite (member_read (Builtin b) "role" eq_refl).
    cbn [Js.bind]. eexists. split; [reflexivity|]. split; discriminate.
Qed.

(** Counting a role fails exactly on a list with a message that is null
    or undefined, and then with a TypeError. *)
Lemma count_role_outcome (role : string) (messages : list value) :
  (exists n, count_role role messages = Return n
             /\ forall m, In m messages -> m <> Undefined /\ m <> Null)
  \/ (count_role role messages = Throw TypeError
      /\ exists m, In m messages /\ (m = Undefined \/ m = Null)).
Proof.
  induction messages as [|m rest IH]; cbn [count_role].
  - left. exists 0%nat. split; [reflexivity|]. intros m [].
  - destruct (has_role_outcome role m) as [(keep & -> & Hu & Hn) | (-> & Hbad)];
      cbn [Js.bind].
    + destruct IH as [(n & -> & Hgood) | (-> & m' & Hin & Hbad)]; cbn [Js.bind].
      * left. eexists. split; [reflexivity|].
        intros m' [<- | Hin]; [now split | now apply Hgood].
      * right. split; [reflexivity|]. exists m'. split; [now right | exact Hbad].
    + right. split; [reflexivity|]. exists m. split; [now left | exact Hbad].
Qed.

(** The duration fails exactly when both timestamps are truthy and one
    of them is an object without a primitive value. *)
Lemma duration_of_outcome (minutes_between : value -> value -> float)
    (created_at updated_at : value) :
  (duration_of minutes_between created_at updated_at = Throw TypeError
   /\ truthy created_at = true /\ truthy updated_at = true
   /\ (convertible created_at = false \/ convertible updated_at = false))
  \/ (exists d, duration_of minutes_between created_at updated_at = Return (Num d)
      /\ ~ (truthy created_at = true /\ truthy updated_at = true
            /\ (convertible created_at = false \/ convertible updated_at = false))
      /\ ((truthy created_at = false \/ truthy updated_at = false) -> d = 0%float)).
Proof.
  unfold duration_of.
  destruct (truthy created_at) eqn:Hc, (truthy updated_at) eqn:Hu; cbn [andb];
    try (right; eexists; split; [reflexivity|]; split;
         [intros (A & B & _); discriminate | reflexivity]).
  destruct (convertible created_at) eqn:Cc, (convertible updated_at) eqn:Cu;
    cbn [andb];
    try (left; repeat split; auto; fail).
  right. eexists. split; [reflexivity|]. split.
  - intros (_ & _ & [A | A]); discriminate.
  - intros [A | A]; discriminate.
Qed.

(** X10: the statistics count each message at most once: user and AI
    messages together never exceed the total, which is the length of the
    message array; without a state or without messages every statistic
    is 0, the rounds included.  The function throws, always a TypeError,
    exactly when the messages are a truthy value that is no array, when
    one of the messages is null or undefined, or when both timestamps
    are truthy and one of them is an object that [new Date] cannot
    convert. *)
Theorem getDebateStats_counts (minutes_between : value -> value -> float)
    (state : option State.t) :
  (forall s, getDebateStats minutes_between state = Return s ->
     (userMessages s + aiMessages s <= totalMessages s)%nat
     /\ totalMessages s = match state with
                          | Some st => match State.messages st with
                                       | State.Messages l => List.length l
                                       | _ => 0%nat
                                       end
                          | None => 0%nat
                          end
     /\ ((state = None
          \/ exists st, state = Some st
                        /\ forall l, State.messages st <> State.Messages l) ->
         s = {| totalMessages := 0; userMessages := 0; aiMessages := 0;
                rounds := Num 0; duration := Num 0 |})
     /\ (forall st, state = Some st ->
         truthy (State.created_at st) = false \/ truthy (State.updated_at st) = false ->
         duration s = Num 0))
  /\ (forall e, getDebateStats minutes_between state = Throw e -> e = TypeError)
  /\ ((exists e, getDebateStats minutes_between state = Throw e)
      <-> exists st,
            state = Some st
            /\ ((exists j, State.messages st = State.Other j /\ truthy (Data j) = true)
                \/ exists l,
                     State.messages st = State.Messages l
                     /\ ((exists m, In m l /\ (m = Undefined \/ m = Null))
                         \/ (truthy (State.created_at st) = true
                             /\ truthy (State.updated_at st) = true
                             /\ (convertible (State.created_at st) = false
                                 \/ convertible (State.updated_at st) = false))))).
Proof.
  assert (Hzero : forall s : stats,
            Return (no_stats) = Return s ->
            (userMessages s + aiMessages s <= totalMessages s)%nat
            /\ totalMessages s = 0%nat
            /\ s = {| totalMessages := 0; userMessages := 0; aiMessages := 0;
                      rounds := Num 0; duration := Num 0 |}
            /\ duration s = Num 0).
  { intros s H. apply Return_inj in H. subst s. now repeat split. }
  unfold getDebateStats.
  destruct state as [st|].
  2: { split; [|split].
       - intros s H. destruct (Hzero s H) as (H1 & H2 & H3 & H4). now repeat split.
       - intros e H. discriminate H.
       - split; [intros [e H]; discriminate H | intros (st & E & _); discriminate E]. }
  destruct (State.messages st) as [|l|j] eqn:Hm.
  - split; [|split].
    + intros s H. destruct (Hzero s H) as (H1 & H2 & H3 & H4). now repeat split.
    + intros e H. discriminate H.
    + split; [intros [e H]; discriminate H|].
      intros (st' & E & [(j & Hj & _) | (l & Hl & _)]); injection E as <-; congruence.
  - destruct (count_role_outcome "user" l) as [(u & Hu & Hgood) | (Hu & m & Hin & Hbad)].
    + destruct (count_role_outcome "ai" l) as [(a & Ha & _) | (_ & m & Hin & Hbad)];
        [|exfalso; destruct (Hgood m Hin); destruct Hbad; contradiction].
      rewrite Hu, Ha. cbn [Js.bind].
      destruct (duration_of_outcome minutes_between (State.created_at st)
                  (State.updated_at st))
        as [(Hd & Hc & Hup & Hno) | (d & Hd & Hnot & Hnone)];
        rewrite Hd; cbn [Js.bind]; (split; [|split]).
      * intros s H. discriminate H.
      * intros e H. now injection H as <-.
      * split; [|intros _; now exists TypeError].
        intros _. exists st. split; [reflexivity|]. right. exists l.
        split; [exact Hm|]. right. auto.
      * intros s H. apply Return_inj in H. subst s.
        cbn [userMessages aiMessages totalMessages duration].
        split; [now apply count_role_both|]. split; [reflexivity|]. split.
        -- intros [E | (st' & E & Hn)]; [discriminate E|].
           injection E as <-. now destruct (Hn l).
        -- intros st' E Hfalsy. injection E as <-. now rewrite (Hnone Hfalsy).
      * intros e H. discriminate H.
      * split; [intros [e H]; discriminate H|].
        intros (st' & E & [(j & Hj & _) | (l' & Hl & [(m & Hin & Hbad) | Hdate])]);
          injection E as <-.
        -- rewrite Hm in Hj. discriminate Hj.
        -- rewrite Hm in Hl. injection Hl as <-.
           destruct (Hgood m Hin). destruct Hbad; contradiction.
        -- contradiction.
    + rewrite Hu. cbn [Js.bind]. split; [|split].
      * intros s H. discriminate H.
      * intros e H. now injection H as <-.
      * split; [|intros _; now exists TypeError].
        intros _. exists st. split; [reflexivity|]. right. exists l.
        split; [exact Hm|]. left. now exists m.
  - destruct (truthy (Data j)) eqn:Hj; (split; [|split]).
    + intros s H. discriminate H.
    + intros e H. now injection H as <-.
    + split; [|intros _; now exists TypeError].
      intros _. exists st. split; [reflexivity|]. left. now exists j.
    + intros s H. destruct (Hzero s H) as (H1 & H2 & H3 & H4). now repeat split.
    + intros e H. discriminate H.
    + split; [intros [e H]; discriminate H|].
      intros (st' & E & [(j' & Hj' & Ht) | (l & Hl & _)]); injection E as <-.
      * rewrite Hm in Hj'. injection Hj' as <-. congruence.
      * congruence.
Qed.

Lemma getDebateStats_counts_witness :
  (exists s,
     getDebateStats (fun _ _ => 0%float)
       (Some {| State.topic := PStr (js "Homework");
                State.user_position := Str (js "for");
                State.ai_position := Str (js "against");
                State.phase := Str (js "opening");
                State.current_round := Num 1;
                State.messages :=
                  State.Messages
                    [ Data (JObj [ (js "role", JStr (js "user")) ]);
                      Data (JObj [ (js "role", JStr (js "ai")) ]);
                      Data (JObj [ (js "role", JStr (js "system")) ]) ];
                State.created_at := Undefined;
                State.updated_at := Undefined |}) = Return s
     /\ (userMessages s + aiMessages s <= totalMessages s)%nat
     /\ totalMessages s = 3%nat)
  /\ (exists e,
        getDebateStats (fun _ _ => 0%float)
          (Some {| State.topic := PStr (js "Homework");
                   State.user_position := Str (js "for");
                   State.ai_position := Str (js "against");
                   State.phase := Str (js "opening");
                   State.current_round := Num 1;
                   State.messages := State.Other (JStr (js "none yet"));
                   State.created_at := Undefined;
                   State.updated_at := Undefined |}) = Throw e).
Proof.
  split.
  - match goal with
    | |- exists s, getDebateStats ?d ?st = _ /\ _ =>
        destruct (getDebateStats d st) as [s|e] eqn:H;
        [ exists s; split; [reflexivity|];
          destruct (proj1 (getDebateStats_counts d st) s H) as (Hle & Htot & _);
          split; [exact Hle | exact Htot]
        | vm_compute in H; discriminate H ]
    end.
  - match goal with
    | |- exists e, getDebateStats ?d ?st = _ =>
        apply (proj2 (proj2 (proj2 (getDebateStats_counts d st))))
    end.
    eexists. split; [reflexivity|]. left. eexists. split; reflexivity.
Defined.

(** ** Programs: what is kept, what cannot throw *)

Import Prog.

Lemma exec_bind {S A B} (m : prog S A) (k : A -> prog S B) (s : S) :
  exec (Prog.bind m k) s =
    match fst (m s) with
    | Done a => exec (k a) (exec m s)
    | Raised _ => exec m s
    end.
Proof. unfold exec, Prog.bind. now destruct (m s) as [[a|t] s']. Qed.

Lemma exec_finally {S A} (m : prog S A) (f : prog S unit) (s : S) :
  exec (finally m f) s = exec f (exec m s).
Proof.
  unfold exec, finally. destruct (m s) as [o s']. cbn [snd].
  now destruct (f s') as [[u|t] s''].
Qed.

Lemma exec_try_catch {S A} (m : prog S A) (h : thrown -> prog S A) (s : S) :
  exec (try_catch m h) s =
    match fst (m s) with
    | Done _ => exec m s
    | Raised t => exec (h t) (exec m s)
    end.
Proof. unfold exec, try_catch. now destruct (m s) as [[a|t] s']. Qed.

Lemma exec_zoom {S T A} (part : S -> T) (put : T -> S -> S) (m : prog T A) (s : S) :
  exec (zoom part put m) s = put (exec m (part s)) s.
Proof. unfold exec, zoom. now destruct (m (part s)). Qed.

Lemma fst_zoom {S T A} (part : S -> T) (put : T -> S -> S) (m : prog T A) (s : S) :
  fst (zoom part put m s) = fst (m (part s)).
Proof. unfold zoom. now destruct (m (part s)). Qed.

Section Keeps.

Context {S : Type} (P : S -> Prop).

Lemma keeps_ret {A} (a : A) : keeps P (ret a).
Proof. intros s H. exact H. Qed.

Lemma keeps_throw {A} (t : thrown) : keeps P (throw (A := A) t).
Proof. intros s H. exact H. Qed.

Lemma keeps_lift {A} (o : outcome A) : keeps P (lift o).
Proof. intros s H. unfold exec, lift. now destruct o. Qed.

Lemma keeps_get : keeps P Prog.get.
Proof. intros s H. exact H. Qed.

Lemma keeps_modify (f : S -> S) : (forall s, P s -> P (f s)) -> keeps P (modify f).
Proof. intros Hf s H. now apply Hf. Qed.

Lemma keeps_bind {A B} (m : prog S A) (k : A -> prog S B) :
  keeps P m -> (forall a, keeps P (k a)) -> keeps P (Prog.bind m k).
Proof.
  intros Hm Hk s H. rewrite exec_bind.
  destruct (fst (m s)); [apply Hk|]; now apply Hm.
Qed.

Lemma keeps_try_catch {A} (m : prog S A) (h : thrown -> prog S A) :
  keeps P m -> (forall t, keeps P (h t)) -> keeps P (try_catch m h).
Proof.
  intros Hm Hh s H. rewrite exec_try_catch.
  destruct (fst (m s)); [|apply Hh]; now apply Hm.
Qed.

Lemma keeps_finally {A} (m : prog S A) (f : prog S unit) :
  keeps P m -> keeps P f -> keeps P (finally m f).
Proof. intros Hm Hf s H. rewrite exec_finally. now apply Hf, Hm. Qed.

End Keeps.

Lemma keeps_zoom {S T A} (P : T -> Prop) (part : S -> T) (put : T -> S -> S)
    (m : prog T A) :
  (forall t s, part (put t s) = t) ->
  keeps P m -> keeps (fun s => P (part s)) (zoom part put m).
Proof.
  intros Hput Hm s H. rewrite exec_zoom, Hput. now apply Hm.
Qed.

Section Safe.

Context {S : Type}.

Lemma safe_ret {A} (a : A) : safe (S := S) (ret a).
Proof. intros s. now exists a. Qed.

Lemma safe_get : safe (S := S) Prog.get.
Proof. intros s. now exists s. Qed.

Lemma safe_modify (f : S -> S) : safe (modify f).
Proof. intros s. now exists tt. Qed.

Lemma safe_bind {A B} (m : prog S A) (k : A -> prog S B) :
  safe m -> (forall a, safe (k a)) -> safe (Prog.bind m k).
Proof.
  intros Hm Hk s. destruct (Hm s) as [a Ha]. unfold Prog.bind.
  destruct (m s) as [[a'|t] s']; cbn [fst] in Ha; [|discriminate].
  apply Hk.
Qed.

Lemma safe_try_catch {A} (m : prog S A) (h : thrown -> prog S A) :
  (forall t, safe (h t)) -> safe (try_catch m h).
Proof.
  intros Hh s. unfold try_catch. destruct (m s) as [[a|t] s'].
  - now exists a.
  - apply Hh.
Qed.

Lemma safe_finally {A} (m : prog S A) (f : prog S unit) :
  safe m -> safe f -> safe (finally m f).
Proof.
  intros Hm Hf s. destruct (Hm s) as [a Ha]. unfold finally.
  destruct (m s) as [o s']. cbn [fst] in Ha. subst o.
  destruct (Hf s') as [u Hu]. destruct (f s') as [[u'|t] s'']; cbn [fst] in Hu;
    [|discriminate]. now exists a.
Qed.

End Safe.

Lemma safe_zoom {S T A} (part : S -> T) (put : T -> S -> S) (m : prog T A) :
  safe m -> safe (zoom part put m).
Proof. intros Hm s. rewrite fst_zoom. apply Hm. Qed.

(** ** The page *)

Lemma createMessageElement_reads (m : message) (v : view) :
  exec (createMessageElement m) v = v
  /\ forall el, fst (createMessageElement m v) = Done el ->
       UIManagerView.id el = UIManagerView.messageCount v.
Proof.
  unfold createMessageElement, add_type_class, exec, Prog.bind, Prog.get, lift, ret, throw.
  cbn [fst snd].
  repeat match goal with
         | |- context [match ?x with _ => _ end] =>
             lazymatch x with
             | context [match _ with _ => _ end] => fail
             | _ => destruct x; cbn [fst snd]
             end
         end; split; try reflexivity; intros el H; try discriminate H;
    injection H as <-; reflexivity.
Qed.

Lemma getToastIcon_string (type : jsstring) :
  exists icon, getToastIcon (Str type) = Return icon.
Proof.
  unfold getToastIcon, lookup. cbn [ToString Js.bind]. rewrite table_get.
  cbn [Js.bind]. eexists. reflexivity.
Qed.

Lemma showToast_appends (message : toast_text) (type : jsstring) (v : view) :
  exists icon,
    showToast message type v =
      (Done tt,
       with_toasts (toasts v ++ [ {| toast_id := toastCount v; toast_type := type;
                                     icon := icon; toast_message := message |} ])
                   (Datatypes.S (toastCount v)) v).
Proof.
  destruct (getToastIcon_string type) as [icon Hicon]. exists icon.
  unfold showToast, Prog.bind, Prog.get, modify, lift. now rewrite Hicon.
Qed.

Lemma addMessage_appends (m : message) (v : view) :
  match fst (createMessageElement m v) with
  | Done el =>
      addMessage m v =
        (Done tt, with_messages (messagesList v ++ [el])
                                (Datatypes.S (UIManagerView.messageCount v)) v)
      /\ UIManagerView.id el = UIManagerView.messageCount v
  | Raised t => addMessage m v = (Raised t, v)
  end.
Proof.
  destruct (createMessageElement_reads m v) as [Hsame Hid].
  unfold addMessage, Prog.bind, modify. unfold exec in Hsame.
  destruct (createMessageElement m v) as [[el|t] v'] eqn:Hc; cbn [fst snd] in *;
    subst v'; [|reflexivity].
  split; [reflexivity | now apply Hid].
Qed.

Ltac keeps_step :=
  match goal with
  | |- keeps _ (Prog.bind _ _) => apply keeps_bind; [|intros ?]
  | |- keeps _ (try_catch _ _) => apply keeps_try_catch; [|intros ?]
  | |- keeps _ (finally _ _) => apply keeps_finally
  | |- keeps _ (ret _) => apply keeps_ret
  | |- keeps _ (throw _) => apply keeps_throw
  | |- keeps _ (lift _) => apply keeps_lift
  | |- keeps _ Prog.get => apply keeps_get
  | |- keeps _ (textContent _ _) => unfold textContent
  | |- keeps _ (modify _) =>
      apply keeps_modify; let s := fresh "s" in let H := fresh "H" in
                          intros s H; exact H
  | |- keeps _ (if ?b then _ else _) => destruct b
  | |- keeps _ (match ?x with _ => _ end) => destruct x
  end.

Section PageKeeps.

(** A property of the page that depends on the chat list, the toasts and
    their counters only. *)
Variable P : view -> Prop.
Hypothesis P_head : forall h v, P v -> P (with_head h v).
Hypothesis P_panel : forall p v, P v -> P (with_agentPanel p v).
Hypothesis P_shown : forall b v, P v -> P (with_chatShown b v).
Hypothesis P_loading : forall b v, P v -> P (with_loading b v).
Hypothesis P_evaluation : forall e v, P v -> P (with_evaluation e v).
Hypothesis P_modal : forall b v, P v -> P (with_modalActive b v).

Ltac page_modify :=
  apply keeps_modify; intros ? ?;
  first [ now apply P_head | now apply P_panel | now apply P_shown
        | now apply P_loading | now apply P_evaluation | now apply P_modal ].

Ltac page_step :=
  match goal with
  | |- keeps _ (modify _) => page_modify
  | _ => keeps_step
  end.

Lemma keeps_updateHeaderStats (stats : header_stats) : keeps P (updateHeaderStats stats).
Proof.
  unfold updateHeaderStats, set_roundCounter, set_phaseIndicator,
    set_topicDisplay, set_topicTitle.
  repeat page_step.
Qed.

Lemma keeps_updateDebateState (state : option State.t) : keeps P (updateDebateState state).
Proof. unfold updateDebateState. repeat page_step. apply keeps_updateHeaderStats. Qed.

Lemma keeps_updateAgentInfo (agentInfo : value) : keeps P (updateAgentInfo agentInfo).
Proof.
  unfold updateAgentInfo, set_agentName, set_agentRole, set_agentReasoning,
    set_meter, set_avatar.
  repeat page_step.
Qed.

Lemma keeps_setupInitialState : keeps P setupInitialState.
Proof.
  unfold setupInitialState.
  repeat first [ apply keeps_updateHeaderStats | apply keeps_updateAgentInfo | page_step ].
Qed.

Lemma keeps_switchToSetup : keeps P switchToSetup.
Proof. unfold switchToSetup. repeat first [ apply keeps_setupInitialState | page_step ]. Qed.

Lemma keeps_switchToChat : keeps P switchToChat.
Proof. unfold switchToChat. page_step. Qed.

Lemma keeps_showLoading (show : bool) : keeps P (showLoading show).
Proof. unfold showLoading. page_step. Qed.

Lemma keeps_showEvaluation (content : value) : keeps P (showEvaluation content).
Proof. unfold showEvaluation. repeat page_step. Qed.

Lemma keeps_hideModal : keeps P hideModal.
Proof. unfold hideModal. page_step. Qed.

End PageKeeps.

Import DebateAppHandlers.

Section HandlerKeeps.

(** A property of the page that every method of the page keeps is kept
    by every handler. *)
Variable P : view -> Prop.
Hypothesis P_head : forall h v, P v -> P (with_head h v).
Hypothesis P_panel : forall p v, P v -> P (with_agentPanel p v).
Hypothesis P_shown : forall b v, P v -> P (with_chatShown b v).
Hypothesis P_loading : forall b v, P v -> P (with_loading b v).
Hypothesis P_evaluation : forall e v, P v -> P (with_evaluation e v).
Hypothesis P_modal : forall b v, P v -> P (with_modalActive b v).
Hypothesis P_addMessage : forall m, keeps P (addMessage m).
Hypothesis P_clearMessages : keeps P clearMessages.
Hypothesis P_showToast : forall message type, keeps P (showToast message type).

Ltac page_method :=
  first [ apply P_addMessage | apply P_clearMessages | apply P_showToast
        | apply keeps_updateDebateState | apply keeps_updateAgentInfo
        | apply keeps_switchToSetup | apply keeps_switchToChat
        | apply keeps_showLoading | apply keeps_showEvaluation
        | apply keeps_hideModal ]; assumption.

Ltac handler_step :=
  match goal with
  | |- keeps _ (on_ui _) =>
      unfold on_ui; apply (keeps_zoom P); [reflexivity | page_method]
  | |- keeps _ (of_result _ _) => unfold of_result
  | |- keeps _ (await _ _) => unfold await
  | |- keeps _ (DebateAppHandlers.throw_new_Error _) =>
      unfold DebateAppHandlers.throw_new_Error
  | _ => keeps_step
  end.

Lemma keeps_resetToSetup : keeps (fun c => P (ui c)) resetToSetup.
Proof. unfold resetToSetup. repeat handler_step. Qed.

Lemma keeps_startNewDebate (category difficulty customTopicValue : jsstring)
    (settled : outcome (option reply)) :
  keeps (fun c => P (ui c)) (startNewDebate category difficulty customTopicValue settled).
Proof. unfold startNewDebate. repeat handler_step. Qed.

Lemma keeps_sendMessage (inputValue : jsstring) (settled : outcome (option reply)) :
  keeps (fun c => P (ui c)) (sendMessage inputValue settled).
Proof. unfold sendMessage. repeat handler_step. Qed.

Lemma keeps_getCoaching (settled : outcome (option reply)) :
  keeps (fun c => P (ui c)) (getCoaching settled).
Proof. unfold getCoaching. repeat handler_step. Qed.

Lemma keeps_endDebate (settled : outcome (option reply)) :
  keeps (fun c => P (ui c)) (endDebate settled).
Proof. unfold endDebate. repeat handler_step. Qed.

Lemma keeps_handleQuickAction (action : jsstring) (settled : outcome (option reply)) :
  keeps (fun c => P (ui c)) (handleQuickAction action settled).
Proof.
  unfold handleQuickAction. repeat first [ apply keeps_resetToSetup | handler_step ].
Qed.

Lemma keeps_quick_question (action : jsstring) (settled : outcome (option reply)) :
  quick_of action <> NewTopic ->
  keeps (fun c => P (ui c)) (handleQuickAction action settled).
Proof.
  intros Hq. unfold handleQuickAction.
  destruct (quick_of action); [| now destruct Hq |]; repeat handler_step.
Qed.

Lemma keeps_handle (e : event) (settled : outcome (option reply)) :
  keeps (fun c => P (ui c)) (handle e settled).
Proof.
  destruct e; cbn [handle];
    first [ apply keeps_startNewDebate | apply keeps_sendMessage
          | apply keeps_getCoaching | apply keeps_endDebate
          | apply keeps_handleQuickAction | apply keeps_resetToSetup
          | repeat first [ apply keeps_resetToSetup | handler_step ] ].
Qed.

Lemma keeps_run (events : list (event * outcome (option reply))) :
  forall c, P (ui c) -> P (ui (run events c)).
Proof.
  induction events as [|[e settled] rest IH]; intros c H; cbn [run]; [exact H|].
  apply IH. now apply (keeps_handle e settled).
Qed.

End HandlerKeeps.

Lemma numbered_addMessage (m : message) : keeps numbered (addMessage m).
Proof.
  intros v [Hm Ht]. unfold exec.
  pose proof (addMessage_appends m v) as H.
  destruct (fst (createMessageElement m v)) as [el|t].
  - destruct H as [-> Hid]. cbn [snd]. split; [|exact Ht].
    cbn [messagesList UIManagerView.messageCount with_messages].
    rewrite map_app, Hm, seq_S. cbn [map Nat.add]. now rewrite Hid.
  - rewrite H. now split.
Qed.

Lemma numbered_showToast (message : toast_text) (type : jsstring) :
  keeps numbered (showToast message type).
Proof.
  intros v [Hm Ht]. unfold exec.
  destruct (showToast_appends message type v) as [icon ->]. cbn [snd].
  split; [exact Hm|]. cbn [toasts toastCount with_toasts].
  rewrite map_app, Ht, seq_S. reflexivity.
Qed.

Lemma numbered_clearMessages : keeps numbered clearMessages.
Proof. intros v [Hm Ht]. split; [reflexivity | exact Ht]. Qed.

(** X11: the chat elements and the toasts stay numbered: whatever events
    happen and whatever the backend answers, the elements of the chat
    list carry the ids 0, 1, 2, ... in order and the message counter is
    their number, and likewise for the toasts shown so far; in particular
    no two elements share an id. *)
Theorem page_stays_numbered (events : list (event * outcome (option reply)))
    (c : controller) :
  numbered (ui c) ->
  numbered (ui (run events c))
  /\ List.length (messagesList (ui (run events c)))
     = UIManagerView.messageCount (ui (run events c))
  /\ NoDup (map UIManagerView.id (messagesList (ui (run events c))))
  /\ NoDup (map toast_id (toasts (ui (run events c)))).
Proof.
  intros H.
  assert (Hn : numbered (ui (run events c))).
  { apply (keeps_run numbered); try (intros; assumption);
      auto using numbered_addMessage, numbered_clearMessages, numbered_showToast. }
  split; [exact Hn|]. destruct Hn as [Hm Ht].
  split; [|split].
  - rewrite <- (length_map UIManagerView.id), Hm. apply length_seq.
  - rewrite Hm. apply seq_NoDup.
  - rewrite Ht. apply seq_NoDup.
Qed.

Lemma page_stays_numbered_witness :
  numbered
    (ui (run [ (StartNewDebate (js "general") (js "moderate") (js ""),
                Return (Some {| success := Data (JBool true);
                                session_id := Some (js "s-1");
                                current_state := None;
                                ai_response :=
                                  Data (JObj [ (js "content", JStr (js "Welcome."));
                                               (js "agent_name", JStr (js "moderator")) ]);
                                error := Undefined |}));
               (SendMessage (js "Homework teaches discipline."),
                Throw (Error (Chars (js "HTTP 500")))) ]
              created)).
Proof.
  apply (page_stays_numbered _ created). split; reflexivity.
Defined.

Lemma updateHeaderStats_result (stats : header_stats) (v : view) :
  convertible (UIManagerView.phase stats) = true ->
  updateHeaderStats stats v =
    if convertible (UIManagerView.round stats) then
      match truncateText (UIManagerView.topic stats) 50 with
      | Return shown =>
          (Done tt,
           with_head {| roundCounter := UIManagerView.round stats;
                        phaseIndicator := UIManagerView.phase stats;
                        topicDisplay := shown;
                        topicTitle := value_of (UIManagerView.topic stats) |} v)
      | Throw e =>
          (Raised (Native e),
           with_head {| roundCounter := UIManagerView.round stats;
                        phaseIndicator := UIManagerView.phase stats;
                        topicDisplay := topicDisplay (head v);
                        topicTitle := topicTitle (head v) |} v)
      end
    else (Raised (Native TypeError), v).
Proof.
  intros Hphase.
  unfold updateHeaderStats, textContent, Prog.bind, modify, throw, lift.
  rewrite Hphase.
  destruct (convertible (UIManagerView.round stats)); [|reflexivity].
  now destruct (truncateText (UIManagerView.topic stats) 50).
Qed.

Lemma truncateText_shown (s : jsstring) :
  s <> [] ->
  UIManager.truncateText (Some s) 50 <> []
  /\ (List.length (UIManager.truncateText (Some s) 50) <= 50)%nat
  /\ ((List.length s <= 50)%nat -> UIManager.truncateText (Some s) 50 = s).
Proof.
  intros Hne.
  pose proof (truncateText_length s 50 ltac:(lia)) as Hlen.
  split; [|split; [lia|]].
  - unfold UIManager.truncateText.
    destruct s as [|c rest]; [now destruct Hne|]. cbn [truthy negb].
    destruct (Z.of_nat (List.length (c :: rest)) <=? 50)%Z; [discriminate|].
    intros E. apply app_eq_nil in E. destruct E as [_ E]. discriminate E.
  - intros Hshort. apply truncateText_short. lia.
Qed.

(** X9: [updateDebateState] writes the header in the order of the source
    and is not atomic.  Nothing is written, and a TypeError is thrown,
    when the state is missing or its phase or round has no text.
    Otherwise round and phase are written first; a topic that is truthy
    and not a string (a number, true) then makes [truncateText] throw a
    TypeError, and the topic shown and its title stay as they were.  A
    topic that is a string, or falsy and replaced by the placeholder, is
    written too: the topic shown is not empty and at most 50 code units
    long, a topic of at most 50 code units is shown in full, and the full
    topic is kept as the title. *)
Theorem updateDebateState_can_stop_half_way (state : option State.t) (v : view) :
  ((state = None
    \/ exists st, state = Some st
                  /\ (convertible (State.phase st) = false
                      \/ convertible (State.current_round st) = false)) ->
   updateDebateState state v = (Raised (Native TypeError), v))
  /\ (forall st,
        state = Some st ->
        convertible (State.phase st) = true ->
        convertible (State.current_round st) = true ->
        exists f,
          formatDebateState state = Return f
          /\ (truthy (value_of (State.topic st)) = true ->
              (forall s, State.topic st <> PStr s) ->
              updateDebateState state v =
                (Raised (Native TypeError),
                 with_head {| roundCounter := DebateManagerStats.round f;
                              phaseIndicator := DebateManagerStats.phase f;
                              topicDisplay := topicDisplay (head v);
                              topicTitle := topicTitle (head v) |} v))
          /\ (truthy (value_of (State.topic st)) = false
              \/ (exists s, State.topic st = PStr s) ->
              exists s,
                DebateManagerStats.topic f = PStr s
                /\ (s = js "No topic set" \/ State.topic st = PStr s)
                /\ updateDebateState state v =
                     (Done tt,
                      with_head {| roundCounter := DebateManagerStats.round f;
                                   phaseIndicator := DebateManagerStats.phase f;
                                   topicDisplay := UIManager.truncateText (Some s) 50;
                                   topicTitle := Str s |} v)
                /\ UIManager.truncateText (Some s) 50 <> []
                /\ (List.length (UIManager.truncateText (Some s) 50) <= 50)%nat
                /\ ((List.length s <= 50)%nat ->
                    UIManager.truncateText (Some s) 50 = s))).
Proof.
  split.
  - intros [-> | (st & -> & Hbad)]; [reflexivity|].
    unfold updateDebateState, Prog.bind, lift.
    destruct (formatDebateState (Some st)) as [f|e] eqn:Hf.
    + destruct (formatDebateState_returns _ f Hf) as [_ Hphase].
      rewrite updateHeaderStats_result by exact Hphase.
      cbn [UIManagerView.round].
      cbn [formatDebateState] in Hf.
      destruct (formatPhase (State.phase st)) as [shown|e] eqn:Hp;
        cbn [Js.bind] in Hf; [|discriminate Hf].
      apply Return_inj in Hf. subst f. cbn [DebateManagerStats.round].
      rewrite convertible_or_zero.
      destruct Hbad as [Hbad | ->]; [|reflexivity].
      pose proof (lookup_throws phaseMap _ Hbad) as Hl.
      unfold formatPhase in Hp. rewrite Hl in Hp. discriminate Hp.
    + now rewrite (formatDebateState_throws _ e Hf).
  - intros st -> Hphase Hround.
    destruct (formatDebateState (Some st)) as [f|e] eqn:Hf.
    2: { cbn [formatDebateState] in Hf.
         destruct (formatPhase (State.phase st)) as [shown|e'] eqn:Hp;
           cbn [Js.bind] in Hf; [discriminate Hf|].
         destruct (formatPhase_throws _ _ Hp) as [Hno _]. congruence. }
    exists f. split; [reflexivity|].
    destruct (formatDebateState_returns _ f Hf) as [_ Hshown].
    unfold updateDebateState, Prog.bind, lift. rewrite Hf.
    rewrite updateHeaderStats_result by exact Hshown.
    cbn [UIManagerView.round UIManagerView.phase UIManagerView.topic].
    cbn [formatDebateState] in Hf.
    destruct (formatPhase (State.phase st)) as [shown|e] eqn:Hp;
      cbn [Js.bind] in Hf; [|discriminate Hf].
    apply Return_inj in Hf. subst f.
    cbn [DebateManagerStats.round DebateManagerStats.phase DebateManagerStats.topic].
    rewrite convertible_or_zero, Hround. unfold topic_or. split.
    + intros Htruthy Hother. rewrite Htruthy.
      unfold truncateText. rewrite Htruthy.
      destruct (State.topic st) as [| | | |s]; try reflexivity.
      now destruct (Hother s).
    + intros [Hfalsy | (s & Hs)].
      * rewrite Hfalsy. exists (js "No topic set").
        split; [reflexivity|]. split; [now left|]. split; [reflexivity|].
        apply truncateText_shown. discriminate.
      * rewrite Hs. cbn [value_of truthy]. destruct s as [|c rest].
        -- exists (js "No topic set").
           split; [reflexivity|]. split; [now left|]. split; [reflexivity|].
           apply truncateText_shown. discriminate.
        -- exists (c :: rest).
           split; [reflexivity|]. split; [now right|]. split; [reflexivity|].
           apply truncateText_shown. discriminate.
Qed.

Lemma updateDebateState_can_stop_half_way_witness :
  (exists t,
     fst (updateDebateState
            (Some {| State.topic := PNum 12345;
                     State.user_position := Str (js "for");
                     State.ai_position := Str (js "against");
                     State.phase := Str (js "opening");
                     State.current_round := Num 1;
                     State.messages := State.Absent;
                     State.created_at := Undefined;
                     State.updated_at := Undefined |}) blank) = Raised t)
  /\ head (exec
       (updateDebateState
          (Some {| State.topic := PNum 12345;
                   State.user_position := Str (js "for");
                   State.ai_position := Str (js "against");
                   State.phase := Str (js "opening");
                   State.current_round := Num 1;
                   State.messages := State.Absent;
                   State.created_at := Undefined;
                   State.updated_at := Undefined |})) blank)
     = {| roundCounter := Num 1;
          phaseIndicator := Str (js "Opening Arguments");
          topicDisplay := js "";
          topicTitle := Str (js "") |}.
Proof.
  match goal with
  | |- (exists t, fst (updateDebateState (Some ?st) ?v) = _) /\ _ =>
      destruct (proj2 (updateDebateState_can_stop_half_way (Some st) v)
                  st eq_refl eq_refl eq_refl) as (f & Hf & Hhalf & _);
      specialize (Hhalf eq_refl ltac:(discriminate))
  end.
  unfold exec. rewrite Hhalf. cbn [fst snd]. split; [now eexists|].
  vm_compute in Hf. apply Return_inj in Hf. subst f. reflexivity.
Defined.

(** ** The handlers *)

Lemma setupInitialState_result (v : view) :
  setupInitialState v =
    (Done tt,
     with_agentPanel moderator_panel
       (with_head {| roundCounter := Num 0; phaseIndicator := Str (js "Setup");
                     topicDisplay := js "Not Set"; topicTitle := Str (js "Not Set") |}
          (with_chatShown false v))).
Proof. vm_compute. reflexivity. Qed.

Lemma resetToSetup_result (c : controller) :
  resetToSetup c =
    (Done tt,
     {| currentSessionId := None;
        currentState := None;
        sent := sent c;
        ui := {| chatShown := false;
                 head := {| roundCounter := Num 0; phaseIndicator := Str (js "Setup");
                            topicDisplay := js "Not Set"; topicTitle := Str (js "Not Set") |};
                 agentPanel := moderator_panel;
                 messagesList := [];
                 UIManagerView.messageCount := 0;
                 loading := loading (ui c);
                 evaluation := evaluation (ui c);
                 modalActive := modalActive (ui c);
                 toasts := toasts (ui c) ++
                   [ {| toast_id := toastCount (ui c);
                        toast_type := js "success";
                        icon := Str [0x2705]%N;
                        toast_message := Plain (js "Ready to start a new debate!") |} ];
                 toastCount := Datatypes.S (toastCount (ui c)) |} |}).
Proof. vm_compute. reflexivity. Qed.

Lemma safe_showToast (message : toast_text) (type : jsstring) :
  safe (showToast message type).
Proof.
  intros v. destruct (showToast_appends message type v) as [icon ->]. now exists tt.
Qed.

Lemma safe_on_ui {A} (m : prog view A) : safe m -> safe (on_ui m).
Proof. apply safe_zoom. Qed.

Lemma safe_resetToSetup : safe resetToSetup.
Proof. intros c. rewrite resetToSetup_result. now exists tt. Qed.

(** X13: no handler lets an exception escape: whatever the backend
    answers and whatever state the page is in, each handler ends
    normally; every failure ends in its catch block. *)
Theorem handlers_never_throw (e : event) (settled : outcome (option reply))
    (c : controller) :
  fst (handle e settled c) = Done tt.
Proof.
  assert (H : safe (handle e settled)).
  { destruct e; cbn [handle];
      unfold startNewDebate, sendMessage, getCoaching, endDebate, handleQuickAction;
      repeat first
        [ apply safe_resetToSetup
        | apply safe_ret
        | apply safe_get
        | apply safe_on_ui, safe_showToast
        | apply safe_on_ui, safe_modify
        | apply safe_finally
        | apply safe_try_catch; intros ?
        | apply safe_bind; [|intros ?]
        | match goal with
          | |- safe (if ?b then _ else _) => destruct b
          end ]. }
  destruct (H c) as [[] Hu]. exact Hu.
Qed.

Lemma exec_bind_raw {A} (m : prog controller unit) (c : controller) (k : prog controller A) :
  fst (m c) = Done tt -> snd (Prog.bind m (fun _ => k) c) = snd (k (snd (m c))).
Proof. unfold Prog.bind. destruct (m c) as [[[]|t] c']; cbn [fst snd]; congruence. Qed.

Lemma exec_on_ui {A} (m : prog view A) (c : controller) :
  exec (on_ui m) c = with_ui (exec m (ui c)) c.
Proof. apply exec_zoom. Qed.

Lemma loading_showToast (message : toast_text) (type : jsstring) (v : view) :
  loading (exec (showToast message type) v) = loading v.
Proof.
  unfold exec. now destruct (showToast_appends message type v) as [icon ->].
Qed.

Lemma loading_cleared {A} (m : prog controller A) (c : controller) :
  loading (ui (exec (finally m (on_ui (showLoading false))) c)) = false.
Proof. rewrite exec_finally, exec_on_ui. reflexivity. Qed.

Lemma exec_get_bind {S A} (k : S -> prog S A) (s : S) :
  exec (Prog.bind Prog.get k) s = exec (k s) s.
Proof. reflexivity. Qed.

Lemma exec_resetToSetup (c : controller) :
  exec resetToSetup c = snd (resetToSetup c).
Proof. reflexivity. Qed.

Lemma loading_handle (e : event) (settled : outcome (option reply)) (c : controller) :
  loading (ui (exec (handle e settled) c)) = false
  \/ loading (ui (exec (handle e settled) c)) = loading (ui c).
Proof.
  destruct e; cbn [handle].
  - left. apply loading_cleared.
  - unfold sendMessage. rewrite exec_get_bind.
    destruct (negb _ || negb _)%bool; [right; reflexivity | left; apply loading_cleared].
  - unfold getCoaching. rewrite exec_get_bind.
    destruct (negb _ || negb _)%bool; [right | left; apply loading_cleared].
    rewrite exec_on_ui. apply loading_showToast.
  - unfold endDebate. rewrite exec_get_bind.
    destruct (negb _); [right | left; apply loading_cleared].
    rewrite exec_on_ui. apply loading_showToast.
  - unfold handleQuickAction. rewrite exec_get_bind.
    destruct (negb _); [right | left; apply loading_cleared].
    rewrite exec_on_ui. apply loading_showToast.
  - right. rewrite exec_on_ui. reflexivity.
  - right. rewrite exec_bind. cbn [fst on_ui zoom hideModal modify].
    rewrite exec_resetToSetup, resetToSetup_result. reflexivity.
Qed.

Lemma loading_run (events : list (event * outcome (option reply))) :
  forall c, loading (ui c) = false -> loading (ui (run events c)) = false.
Proof.
  induction events as [|[e settled] rest IH]; intros c H; cbn [run]; [exact H|].
  apply IH. destruct (loading_handle e settled c) as [E | E]; congruence.
Qed.

(** X12: the loading overlay is never left on: every handler that shows
    it hides it again on every path, so after any sequence of events on
    a page whose overlay was off, the overlay is off, whatever the
    backend answered; after starting a debate it is off even if it was
    on before. *)
Theorem loading_is_never_left_on (events : list (event * outcome (option reply)))
    (c : controller) :
  (loading (ui c) = false -> loading (ui (run events c)) = false)
  /\ (forall category difficulty customTopicValue settled,
        loading (ui (exec (startNewDebate category difficulty customTopicValue settled) c))
        = false).
Proof.
  split; [apply loading_run|].
  intros. apply loading_cleared.
Qed.

Lemma loading_is_never_left_on_witness :
  loading (ui (run [ (SendMessage (js "Taxes fund schools."), Return None);
                     (GetCoaching, Throw SyntaxError);
                     (EndDebate, Throw TypeError) ]
                   {| currentSessionId := Some (js "s-1");
                      currentState := None;
                      ui := blank;
                      sent := [] |})) = false.
Proof.
  apply (proj1 (loading_is_never_left_on _ _)). reflexivity.
Defined.

Lemma handle_without_session (e : event) (settled : outcome (option reply))
    (c : controller) :
  (forall a b d, e <> StartNewDebate a b d) ->
  truthy (session_value c) = false ->
  sent (exec (handle e settled) c) = sent c
  /\ truthy (session_value (exec (handle e settled) c)) = false.
Proof.
  intros Hstart Hs. destruct e; cbn [handle].
  - now destruct (Hstart category difficulty customTopicValue).
  - unfold sendMessage. rewrite exec_get_bind, Hs.
    cbn [negb]. rewrite orb_true_r. now split.
  - unfold getCoaching. rewrite exec_get_bind, Hs. cbn [negb orb].
    rewrite exec_on_ui. now split.
  - unfold endDebate. rewrite exec_get_bind, Hs. cbn [negb].
    rewrite exec_on_ui. now split.
  - unfold handleQuickAction. rewrite exec_get_bind, Hs. cbn [negb].
    rewrite exec_on_ui. now split.
  - rewrite exec_on_ui. now split.
  - rewrite exec_bind. cbn [fst on_ui zoom hideModal modify].
    rewrite exec_resetToSetup, resetToSetup_result. cbn [snd sent session_value]. 
    rewrite exec_on_ui. now split.
Qed.

Lemma run_without_session (events : list (event * outcome (option reply))) :
  forall c,
    (forall e settled, In (e, settled) events ->
       forall a b d, e <> StartNewDebate a b d) ->
    truthy (session_value c) = false ->
    sent (run events c) = sent c
    /\ truthy (session_value (run events c)) = false.
Proof.
  induction events as [|[e settled] rest IH]; intros c Hstart Hs; cbn [run];
    [now split|].
  destruct (handle_without_session e settled c) as [Hsent Hs'];
    [apply (Hstart e settled); now left | exact Hs|].
  destruct (IH (exec (handle e settled) c)) as [Hsent' Hs''];
    [intros e' s' Hin; apply (Hstart e' s'); now right | exact Hs'|].
  split; [congruence | exact Hs''].
Qed.

(** X14: without a session nothing is sent: as long as no debate is
    started, a page without a session id (null or empty) issues no
    request and stays without a session id, whatever the user clicks or
    types. *)
Theorem no_request_without_session (events : list (event * outcome (option reply)))
    (c : controller) :
  (forall e settled, In (e, settled) events ->
     forall a b d, e <> StartNewDebate a b d) ->
  truthy (session_value c) = false ->
  sent (run events c) = sent c
  /\ truthy (session_value (run events c)) = false.
Proof.
  revert c. induction events as [|[e settled] rest IH]; intros c Hstart Hs;
    cbn [run]; [now split|].
  destruct (handle_without_session e settled c) as [Hsent Hs'];
    [apply (Hstart e settled); now left | exact Hs|].
  destruct (IH (exec (handle e settled) c)) as [Hsent' Hs''];
    [intros e' s' Hin; apply (Hstart e' s'); now right | exact Hs'|].
  split; [congruence | exact Hs''].
Qed.

Lemma no_request_without_session_witness :
  sent (run [ (SendMessage (js "Anyone there?"), Return None);
              (QuickAction (js "feedback"), Return None);
              (GetCoaching, Return None);
              (NewDebate, Return None);
              (EndDebate, Return None) ] created) = [].
Proof.
  apply (no_request_without_session _ created); [|reflexivity].
  intros e settled Hin a b d E. subst e. cbn [In] in Hin.
  repeat (destruct Hin as [Hin | Hin]; [discriminate Hin|]). destruct Hin.
Defined.

(** X15: a send whose request fails changes nothing but the chat and the
    toasts: the user's message stays in the chat, one request went out,
    exactly one error toast is shown with the message of the failure,
    the overlay is off, and the session, the debate state, the header
    and the agent panel are as before. *)
Theorem sendMessage_failure_is_contained (inputValue id : jsstring)
    (err : exception) (c : controller) :
  currentSessionId c = Some id -> id <> [] -> JsString.trim inputValue <> [] ->
  exec (sendMessage inputValue (Throw err)) c =
    {| currentSessionId := currentSessionId c;
       currentState := currentState c;
       sent := sent c ++ [ continue_request id (JsString.trim inputValue) ];
       ui := {| chatShown := chatShown (ui c);
                head := head (ui c);
                agentPanel := agentPanel (ui c);
                messagesList := messagesList (ui c) ++
                  [ {| UIManagerView.id := UIManagerView.messageCount (ui c);
                       role_class := js "user";
                       badge := None;
                       body := JsString.trim inputValue;
                       type_class := None |} ];
                UIManagerView.messageCount := Datatypes.S (UIManagerView.messageCount (ui c));
                loading := false;
                evaluation := evaluation (ui c);
                modalActive := modalActive (ui c);
                toasts := toasts (ui c) ++
                  [ {| toast_id := toastCount (ui c);
                       toast_type := js "error";
                       icon := Str [0x274C]%N;
                       toast_message := Failure (js "Failed to send message: ")
                                                (Native err) |} ];
                toastCount := Datatypes.S (toastCount (ui c)) |} |}.
Proof.
  intros Hid Hne Hmsg. destruct c as [sid st v sent0]. cbn [currentSessionId] in Hid.
  subst sid. destruct id as [|i0 id']; [now destruct Hne|].
  unfold sendMessage. destruct (JsString.trim inputValue) as [|m0 m]; [now destruct Hmsg|].
  vm_compute. reflexivity.
Qed.

Lemma sendMessage_failure_is_contained_witness :
  currentState (exec (sendMessage (js "  Taxes fund schools. ")
                                  (Throw (Error (Chars (js "HTTP 503")))))
                     {| currentSessionId := Some (js "s-1");
                        currentState := None;
                        ui := blank;
                        sent := [] |}) = None.
Proof.
  rewrite (sendMessage_failure_is_contained (js "  Taxes fund schools. ") (js "s-1")
             (Error (Chars (js "HTTP 503")))
             {| currentSessionId := Some (js "s-1"); currentState := None;
                ui := blank; sent := [] |} eq_refl);
    [reflexivity | discriminate | vm_compute; discriminate].
Defined.

(** ** What is sent *)

Lemma trimStart_fixed (c : JsString.code_unit) (r : jsstring) :
  JsString.is_white_space c = false -> JsString.trimStart (c :: r) = c :: r.
Proof. intros H. cbn [JsString.trimStart]. now rewrite H. Qed.

Lemma trimStart_head (s r : jsstring) (c : JsString.code_unit) :
  JsString.trimStart s = c :: r -> JsString.is_white_space c = false.
Proof.
  induction s as [|x s IH]; cbn [JsString.trimStart]; [discriminate|].
  destruct (JsString.is_white_space x) eqn:Hx; [exact IH|].
  intros E. injection E as <- _. exact Hx.
Qed.

Lemma trimStart_idempotent (s : jsstring) :
  JsString.trimStart (JsString.trimStart s) = JsString.trimStart s.
Proof.
  destruct (JsString.trimStart s) as [|c r] eqn:E; [reflexivity|].
  apply trimStart_fixed. now apply (trimStart_head s r).
Qed.

Lemma trimStart_snoc (l : jsstring) (c : JsString.code_unit) :
  JsString.is_white_space c = false ->
  JsString.trimStart (l ++ [c]) = JsString.trimStart l ++ [c].
Proof.
  intros Hc. induction l as [|x l IH]; cbn [app JsString.trimStart].
  - now rewrite Hc.
  - now destruct (JsString.is_white_space x).
Qed.

Lemma trim_shape (s : jsstring) :
  JsString.trim s = []
  \/ exists c t, JsString.is_white_space c = false
                 /\ JsString.trimStart t = t
                 /\ JsString.trim s = c :: rev t.
Proof.
  unfold JsString.trim, JsString.trimEnd.
  destruct (JsString.trimStart s) as [|c a] eqn:Ha; [now left|].
  right. pose proof (trimStart_head s a c Ha) as Hc.
  exists c, (JsString.trimStart (rev a)). split; [exact Hc|].
  split; [apply trimStart_idempotent|].
  cbn [rev]. rewrite (trimStart_snoc _ c Hc), rev_app_distr. reflexivity.
Qed.

Lemma trim_idempotent (s : jsstring) :
  JsString.trim (JsString.trim s) = JsString.trim s.
Proof.
  destruct (trim_shape s) as [-> | (c & t & Hc & Ht & ->)]; [reflexivity|].
  unfold JsString.trim, JsString.trimEnd.
  rewrite (trimStart_fixed c (rev t) Hc). cbn [rev].
  rewrite rev_involutive, (trimStart_snoc t c Hc), Ht, rev_app_distr.
  reflexivity.
Qed.

Lemma validateMessage_trimmed (s : jsstring) :
  JsString.trim s <> [] ->
  validateMessage (Str (JsString.trim s)) =
    if (2000 <? List.length (JsString.trim s))%nat then too_long else accepted.
Proof.
  intros Hne. rewrite validateMessage_string, trim_idempotent.
  destruct (List.length (JsString.trim s) =? 0)%nat eqn:E; [|reflexivity].
  apply length_zero_iff in E. contradiction.
Qed.

Lemma exec_bind_done {S A B} (m : prog S A) (k : A -> prog S B) (s : S) (a : A) :
  fst (m s) = Done a -> exec (Prog.bind m k) s = exec (k a) (exec m s).
Proof. intros H. rewrite exec_bind, H. reflexivity. Qed.

Lemma exec_bind_raised {S A B} (m : prog S A) (k : A -> prog S B) (s : S) (t : thrown) :
  fst (m s) = Raised t -> exec (Prog.bind m k) s = exec m s.
Proof. intros H. rewrite exec_bind, H. reflexivity. Qed.

Lemma keeps_frame_on_ui {A} (Q : controller -> Prop) (m : prog view A) :
  (forall v c, Q c -> Q (with_ui v c)) -> keeps Q (on_ui m).
Proof. intros HQ c H. rewrite exec_on_ui. now apply HQ. Qed.

Ltac frame_step :=
  match goal with
  | |- keeps _ (on_ui _) =>
      apply keeps_frame_on_ui; let H := fresh "H" in intros ? ? H; exact H
  | |- keeps _ (of_result _ _) => unfold of_result
  | |- keeps _ (DebateAppHandlers.throw_new_Error _) =>
      unfold DebateAppHandlers.throw_new_Error
  | _ => keeps_step
  end.

Lemma createMessageElement_user (m : jsstring) (v : view) :
  createMessageElement {| UIManagerView.role := js "user"; content := Str m;
                          agent_name := Undefined; metadata := Undefined |} v
  = (Done {| UIManagerView.id := UIManagerView.messageCount v;
             role_class := js "user"; badge := None; body := m;
             type_class := None |}, v).
Proof. reflexivity. Qed.

Lemma sendMessage_sent (inputValue id : jsstring) (settled : outcome (option reply))
    (c : controller) :
  currentSessionId c = Some id -> id <> [] -> JsString.trim inputValue <> [] ->
  sent (exec (sendMessage inputValue settled) c)
  = sent c ++ [ continue_request id (JsString.trim inputValue) ].
Proof.
  intros Hid Hne Hmsg. unfold sendMessage. rewrite exec_get_bind.
  assert (Hs : truthy (session_value c) = true).
  { unfold session_value. rewrite Hid. destruct id; [now destruct Hne | reflexivity]. }
  assert (Hm : truthy (Str (JsString.trim inputValue)) = true).
  { destruct (JsString.trim inputValue); [now destruct Hmsg | reflexivity]. }
  assert (Hchars : chars (session_value c) = id).
  { unfold session_value. now rewrite Hid. }
  rewrite Hs, Hm, Hchars. cbn [negb orb].
  rewrite exec_finally, exec_on_ui. cbn [sent with_ui].
  rewrite exec_try_catch.
  match goal with
  | |- context [fst (?body c)] => set (b := body)
  end.
  assert (Hb : sent (exec b c) = sent c ++ [continue_request id (JsString.trim inputValue)]).
  { unfold b.
    rewrite (exec_bind_done _ _ c tt) by reflexivity.
    rewrite (exec_bind_done _ _ _ tt)
      by (unfold on_ui, zoom, addMessage, Prog.bind;
          rewrite createMessageElement_user; reflexivity).
    unfold await.
    match goal with
    | |- sent (exec (Prog.bind (Prog.bind (modify ?f) ?l) ?k) ?c0) = _ =>
        set (rest := k); set (c1 := c0)
    end.
    assert (Hc1 : sent c1 = sent c).
    { unfold c1. rewrite !exec_on_ui. reflexivity. }
    destruct settled as [result|err].
    - rewrite (exec_bind_done _ _ c1 result) by reflexivity.
      assert (Hk : keeps (fun c' => sent c' = sent c ++
                        [continue_request id (JsString.trim inputValue)]) (rest result)).
      { unfold rest. repeat frame_step. }
      apply Hk. unfold exec, Prog.bind, modify, lift. cbn [fst snd sent with_sent].
      now rewrite Hc1.
    - rewrite (exec_bind_raised _ _ c1 (Native err)) by reflexivity.
      unfold exec, Prog.bind, modify, lift. cbn [fst snd sent with_sent].
      now rewrite Hc1. }
  destruct (fst (b c)); [exact Hb|].
  rewrite exec_on_ui. exact Hb.
Qed.

(** X16: what [sendMessage] sends is the trimmed input, and nothing but
    its length can be wrong with it: with a session and a text that is
    not blank, exactly one request goes out whatever the backend answers,
    it carries the session id and the trimmed text, and [validateMessage]
    accepts that text unless it is longer than 2000 code units, a limit
    the handler does not apply.  The requests are those of
    [DebateApp.sendMessage]. *)
Theorem sendMessage_sends_trimmed (inputValue id : jsstring)
    (settled : outcome (option reply)) (c : controller) :
  currentSessionId c = Some id -> id <> [] -> JsString.trim inputValue <> [] ->
  sent (exec (sendMessage inputValue settled) c)
  = sent c ++ [ continue_request id (JsString.trim inputValue) ]
  /\ validateMessage (Str (JsString.trim inputValue))
     = (if (2000 <? List.length (JsString.trim inputValue))%nat
        then too_long else accepted)
  /\ JsString.trim (JsString.trim inputValue) = JsString.trim inputValue
  /\ (forall state chat,
        sent (exec (sendMessage inputValue settled) c)
        = DebateApp.sent
            (DebateApp.sendMessage inputValue
               {| DebateApp.currentSessionId := currentSessionId c;
                  DebateApp.currentState := state;
                  DebateApp.messagesList := chat;
                  DebateApp.sent := sent c |})).
Proof.
  intros Hid Hne Hmsg.
  split; [now apply sendMessage_sent|].
  split; [now apply validateMessage_trimmed|].
  split; [apply trim_idempotent|].
  intros state chat. rewrite (sendMessage_sent inputValue id settled c Hid Hne Hmsg).
  unfold DebateApp.sendMessage. cbn [DebateApp.session_value DebateApp.currentSessionId].
  rewrite Hid.
  destruct (JsString.trim inputValue) as [|m0 m]; [now destruct Hmsg|].
  destruct id as [|i0 id']; [now destruct Hne|]. reflexivity.
Qed.

Lemma sendMessage_sends_trimmed_witness :
  sent (exec (sendMessage (js "  Taxes fund schools. ") (Return None))
             {| currentSessionId := Some (js "s-1"); currentState := None;
                ui := blank; sent := [] |})
  = [ continue_request (js "s-1") (js "Taxes fund schools.") ].
Proof.
  apply (proj1 (sendMessage_sends_trimmed (js "  Taxes fund schools. ") (js "s-1")
                  (Return None)
                  {| currentSessionId := Some (js "s-1"); currentState := None;
                     ui := blank; sent := [] |} eq_refl
                  ltac:(discriminate) ltac:(vm_compute; discriminate))).
Defined.

(** X17: starting a debate always sends one start request, with or
    without a session, whatever the backend answers; a custom topic that
    is blank goes out as null, any other as its trimmed text, so the
    request never carries an empty or padded custom topic. *)
Theorem startNewDebate_request (category difficulty customTopicValue : jsstring)
    (settled : outcome (option reply)) (c : controller) :
  exists custom_topic,
    sent (exec (startNewDebate category difficulty customTopicValue settled) c)
    = sent c ++
        [ DebateManager.request_of DebateApp.apiBaseUrl
            (DebateManager.Start
               (JObj [ (js "category", JStr category);
                       (js "difficulty", JStr difficulty);
                       (js "custom_topic", custom_topic) ])) ]
    /\ ((JsString.trim customTopicValue = [] /\ custom_topic = JNull)
        \/ (JsString.trim customTopicValue <> []
            /\ custom_topic = JStr (JsString.trim customTopicValue)
            /\ JsString.trim (JsString.trim customTopicValue)
               = JsString.trim customTopicValue)).
Proof.
  exists (if truthy (Str (JsString.trim customTopicValue))
          then JStr (JsString.trim customTopicValue) else JNull).
  split.
  - unfold startNewDebate.
    rewrite exec_finally, exec_on_ui. cbn [sent with_ui].
    rewrite exec_try_catch.
    match goal with
    | |- context [fst (?body c)] => set (b := body)
    end.
    match goal with
    | |- context [sent c ++ [?r]] => set (request := r)
    end.
    assert (Hb : sent (exec b c) = sent c ++ [request]).
    { unfold b. rewrite (exec_bind_done _ _ c tt) by reflexivity.
      unfold await.
      match goal with
      | |- sent (exec (Prog.bind (Prog.bind (modify ?f) ?l) ?k) ?c0) = _ =>
          set (rest := k); set (c1 := c0)
      end.
      assert (Hc1 : sent c1 = sent c) by (unfold c1; now rewrite exec_on_ui).
      destruct settled as [result|err].
      - rewrite (exec_bind_done _ _ c1 result) by reflexivity.
        assert (Hk : keeps (fun c' => sent c' = sent c ++ [request]) (rest result)).
        { unfold rest. repeat frame_step. }
        apply Hk. unfold exec, Prog.bind, modify, lift. cbn [fst snd sent with_sent].
        now rewrite Hc1.
      - rewrite (exec_bind_raised _ _ c1 (Native err)) by reflexivity.
        unfold exec, Prog.bind, modify, lift. cbn [fst snd sent with_sent].
        now rewrite Hc1. }
    destruct (fst (b c)); [exact Hb|].
    rewrite exec_on_ui. exact Hb.
  - destruct (JsString.trim customTopicValue) as [|t0 t] eqn:Ht.
    + left. now split.
    + right. split; [discriminate|]. split; [reflexivity|].
      rewrite <- Ht. apply trim_idempotent.
Qed.

Lemma adopted_by_rest {A} (Q : controller -> Prop) (m : prog controller A)
    (h : thrown -> prog view A) (c : controller) :
  (forall v c', Q c' -> Q (with_ui v c')) ->
  Q (exec m c) ->
  Q (exec (finally (try_catch m (fun t => on_ui (h t))) (on_ui (showLoading false))) c).
Proof.
  intros HQ Hm. rewrite exec_finally, exec_on_ui. apply HQ.
  rewrite exec_try_catch. destruct (fst (m c)); [exact Hm|].
  rewrite exec_on_ui. now apply HQ.
Qed.

(** X18: a reply that reports success is adopted before anything is
    drawn: after a successful reply to a start, the session id and the
    debate state are those of the reply and the chat is shown, and after
    a successful reply to a message the debate state is that of the
    reply, even when drawing the state or the answer then fails (a reply
    without a state, an answer without a content). *)
Theorem successful_reply_is_adopted (r : reply) (c : controller) :
  truthy (success r) = true ->
  (forall category difficulty customTopicValue,
     currentSessionId
       (exec (startNewDebate category difficulty customTopicValue (Return (Some r))) c)
     = session_id r
     /\ currentState
          (exec (startNewDebate category difficulty customTopicValue (Return (Some r))) c)
        = current_state r)
  /\ (forall inputValue id,
        currentSessionId c = Some id -> id <> [] -> JsString.trim inputValue <> [] ->
        currentSessionId (exec (sendMessage inputValue (Return (Some r))) c) = Some id
        /\ currentState (exec (sendMessage inputValue (Return (Some r))) c)
           = current_state r).
Proof.
  intros Hok. split.
  - intros category difficulty customTopicValue. unfold startNewDebate.
    apply (adopted_by_rest
             (fun c' => currentSessionId c' = session_id r
                        /\ currentState c' = current_state r));
      [intros v c' H; exact H|].
    rewrite (exec_bind_done _ _ c tt) by reflexivity.
    rewrite (exec_bind_done _ _ _ (Some r)) by reflexivity.
    rewrite (exec_bind_done _ _ _ (success r)) by reflexivity.
    rewrite Hok.
    rewrite (exec_bind_done _ _ _ (session_id r)) by reflexivity.
    rewrite (exec_bind_done _ _ _ tt) by reflexivity.
    rewrite (exec_bind_done _ _ _ (current_state r)) by reflexivity.
    rewrite (exec_bind_done _ _ _ tt) by reflexivity.
    match goal with
    | |- _ (exec ?rest ?c0) = _ /\ _ =>
        assert (Hk : keeps (fun c' => currentSessionId c' = session_id r
                                      /\ currentState c' = current_state r) rest)
          by (repeat frame_step);
        apply Hk
    end.
    split; reflexivity.
  - intros inputValue id Hid Hne Hmsg. unfold sendMessage. rewrite exec_get_bind.
    assert (Hs : truthy (session_value c) = true).
    { unfold session_value. rewrite Hid. destruct id; [now destruct Hne | reflexivity]. }
    assert (Hm : truthy (Str (JsString.trim inputValue)) = true).
    { destruct (JsString.trim inputValue); [now destruct Hmsg | reflexivity]. }
    rewrite Hs, Hm. cbn [negb orb].
    apply (adopted_by_rest
             (fun c' => currentSessionId c' = Some id
                        /\ currentState c' = current_state r));
      [intros v c' H; exact H|].
    rewrite (exec_bind_done _ _ c tt) by reflexivity.
    rewrite (exec_bind_done _ _ _ tt)
      by (unfold on_ui, zoom, addMessage, Prog.bind;
          rewrite createMessageElement_user; reflexivity).
    rewrite (exec_bind_done _ _ _ (Some r)) by reflexivity.
    rewrite (exec_bind_done _ _ _ (success r)) by reflexivity.
    rewrite Hok.
    rewrite (exec_bind_done _ _ _ (current_state r)) by reflexivity.
    rewrite (exec_bind_done _ _ _ tt) by reflexivity.
    match goal with
    | |- _ (exec ?rest ?c0) = _ /\ _ =>
        assert (Hk : keeps (fun c' => currentSessionId c' = Some id
                                      /\ currentState c' = current_state r) rest)
          by (repeat frame_step);
        apply Hk
    end.
    split; [|reflexivity].
    rewrite !exec_on_ui. exact Hid.
Qed.

Lemma successful_reply_is_adopted_witness :
  currentState
    (exec (sendMessage (js "Taxes fund schools.")
             (Return (Some {| success := Data (JBool true);
                              session_id := None;
                              current_state := None;
                              ai_response := Undefined;
                              error := Undefined |})))
          {| currentSessionId := Some (js "s-1");
             currentState :=
               Some {| State.topic := PStr (js "Taxes");
                       State.user_position := Str (js "for");
                       State.ai_position := Str (js "against");
                       State.phase := Str (js "opening");
                       State.current_round := Num 1;
                       State.messages := State.Absent;
                       State.created_at := Undefined;
                       State.updated_at := Undefined |};
             ui := blank;
             sent := [] |}) = None.
Proof.
  match goal with
  | |- currentState (exec (sendMessage ?i (Return (Some ?r))) ?c) = _ =>
      apply (proj2 (successful_reply_is_adopted r c eq_refl) i (js "s-1") eq_refl)
  end; [discriminate | vm_compute; discriminate].
Defined.

(** X19: [resetToSetup] returns the page to its beginning and nothing
    more is sent until a debate is started: the session id and the
    debate state are null, the chat is empty with its counter at 0, the
    setup panel is shown, the header reads round 0, "Setup", "Not Set",
    one success toast is added and no request is issued, then or on any
    later event other than a start.  The agent panel shows the
    Moderator, not the System agent the method passes, because
    [extractAgentInfo] looks for agent_name only. *)
Theorem resetToSetup_clears (c : controller) :
  currentSessionId (exec resetToSetup c) = None
  /\ currentState (exec resetToSetup c) = None
  /\ messagesList (ui (exec resetToSetup c)) = []
  /\ UIManagerView.messageCount (ui (exec resetToSetup c)) = 0%nat
  /\ chatShown (ui (exec resetToSetup c)) = false
  /\ head (ui (exec resetToSetup c))
     = {| roundCounter := Num 0; phaseIndicator := Str (js "Setup");
          topicDisplay := js "Not Set"; topicTitle := Str (js "Not Set") |}
  /\ agentPanel (ui (exec resetToSetup c)) = moderator_panel
  /\ UIManager.agentName (agentPanel (ui (exec resetToSetup c))) <> Str (js "System")
  /\ List.length (toasts (ui (exec resetToSetup c)))
     = Datatypes.S (List.length (toasts (ui c)))
  /\ (forall events,
        (forall e settled, In (e, settled) events ->
           forall a b d, e <> StartNewDebate a b d) ->
        sent (run events (exec resetToSetup c)) = sent c).
Proof.
  rewrite exec_resetToSetup, resetToSetup_result. cbn [snd].
  cbn [currentSessionId currentState ui messagesList UIManagerView.messageCount
       chatShown head agentPanel toasts].
  repeat split; try discriminate.
  - rewrite length_app. cbn [List.length]. lia.
  - intros events Hstart.
    match goal with
    | |- sent (run events ?c') = _ =>
        destruct (run_without_session events c' Hstart eq_refl) as [-> _]
    end.
    reflexivity.
Qed.

(** ** What the handlers leave alone *)

Ltac frame_handler :=
  repeat match goal with
         | |- keeps _ (await _ _) => unfold await
         | _ => frame_step
         end.

Lemma showToast_frame (P : view -> Prop) (message : toast_text) (type : jsstring) :
  (forall l n v, P v -> P (with_toasts l n v)) -> keeps P (showToast message type).
Proof.
  intros HP v H. unfold exec.
  destruct (showToast_appends message type v) as [icon ->]. now apply HP.
Qed.

Lemma addMessage_frame (P : view -> Prop) (m : message) :
  (forall l n v, P v -> P (with_messages l n v)) -> keeps P (addMessage m).
Proof.
  intros HP v H. unfold exec. pose proof (addMessage_appends m v) as Ha.
  destruct (fst (createMessageElement m v)).
  - destruct Ha as [-> _]. now apply HP.
  - now rewrite Ha.
Qed.

(** X20: ending a debate touches neither the header, the chat, the agent
    panel nor the session id, whatever the backend answers: the page
    keeps its session after the end, and at most the end request is
    sent. *)
Theorem endDebate_leaves_the_debate_on_screen (settled : outcome (option reply))
    (c : controller) :
  head (ui (exec (endDebate settled) c)) = head (ui c)
  /\ messagesList (ui (exec (endDebate settled) c)) = messagesList (ui c)
  /\ UIManagerView.messageCount (ui (exec (endDebate settled) c))
     = UIManagerView.messageCount (ui c)
  /\ agentPanel (ui (exec (endDebate settled) c)) = agentPanel (ui c)
  /\ chatShown (ui (exec (endDebate settled) c)) = chatShown (ui c)
  /\ currentSessionId (exec (endDebate settled) c) = currentSessionId c.
Proof.
  pose (P := fun v' : view =>
               head v' = head (ui c)
               /\ messagesList v' = messagesList (ui c)
               /\ UIManagerView.messageCount v' = UIManagerView.messageCount (ui c)
               /\ agentPanel v' = agentPanel (ui c)
               /\ chatShown v' = chatShown (ui c)).
  assert (Hp : P (ui (exec (endDebate settled) c))).
  { apply (keeps_endDebate P); try (intros; assumption).
    - intros message type. apply showToast_frame. intros; assumption.
    - unfold P. repeat split. }
  assert (Hs : currentSessionId (exec (endDebate settled) c) = currentSessionId c).
  { assert (Hk : keeps (fun c' => currentSessionId c' = currentSessionId c)
                       (endDebate settled))
      by (unfold endDebate; frame_handler).
    now apply Hk. }
  destruct Hp as (H1 & H2 & H3 & H4 & H5). repeat split; assumption.
Qed.

(** X22: coaching and the quick questions never change the debate:
    after [getCoaching], and after a quick action other than new-topic,
    the debate state, the session id, the header and the shown panel are
    as before, whatever the backend answers; neither handler adopts the
    state of the reply. *)
Theorem questions_leave_the_debate_state (settled : outcome (option reply))
    (c : controller) :
  (currentState (exec (getCoaching settled) c) = currentState c
   /\ currentSessionId (exec (getCoaching settled) c) = currentSessionId c
   /\ head (ui (exec (getCoaching settled) c)) = head (ui c)
   /\ chatShown (ui (exec (getCoaching settled) c)) = chatShown (ui c))
  /\ (forall action,
        action <> js "new-topic" ->
        currentState (exec (handleQuickAction action settled) c) = currentState c
        /\ currentSessionId (exec (handleQuickAction action settled) c)
           = currentSessionId c
        /\ head (ui (exec (handleQuickAction action settled) c)) = head (ui c)
        /\ chatShown (ui (exec (handleQuickAction action settled) c))
           = chatShown (ui c)).
Proof.
  pose (P := fun v' : view =>
               head v' = head (ui c) /\ chatShown v' = chatShown (ui c)).
  pose (Q := fun c' : controller =>
               currentState c' = currentState c
               /\ currentSessionId c' = currentSessionId c).
  assert (HPadd : forall m, keeps P (addMessage m))
    by (intros m; apply addMessage_frame; intros; assumption).
  assert (HPtoast : forall message type, keeps P (showToast message type))
    by (intros message type; apply showToast_frame; intros; assumption).
  split.
  - assert (Hp : P (ui (exec (getCoaching settled) c))).
    { apply (keeps_getCoaching P);
        first [ apply HPadd | apply HPtoast | intros; assumption
              | unfold P; now split ]. }
    assert (Hq : Q (exec (getCoaching settled) c)).
    { assert (Hk : keeps Q (getCoaching settled))
        by (unfold getCoaching; frame_handler).
      apply Hk. unfold Q. now split. }
    destruct Hp, Hq. repeat split; assumption.
  - intros action Hnew.
    assert (Hquick : quick_of action <> NewTopic).
    { unfold quick_of.
      destruct (JsString.eqb action (js "feedback")); [discriminate|].
      destruct (JsString.eqb action (js "summary")); [discriminate|].
      destruct (JsString.eqb action (js "new-topic")) eqn:E; [|discriminate].
      apply eqb_eq in E. contradiction. }
    assert (Hp : P (ui (exec (handleQuickAction action settled) c))).
    { apply (keeps_quick_question P);
        first [ apply HPadd | apply HPtoast | exact Hquick | intros; assumption
              | unfold P; now split ]. }
    assert (Hq : Q (exec (handleQuickAction action settled) c)).
    { assert (Hk : keeps Q (handleQuickAction action settled)).
      { unfold handleQuickAction.
        destruct (quick_of action); [| now destruct Hquick |]; frame_handler. }
      apply Hk. unfold Q. now split. }
    destruct Hp, Hq. repeat split; assumption.
Qed.

Lemma questions_leave_the_debate_state_witness :
  currentSessionId
    (exec (handleQuickAction (js "feedback") (Throw SyntaxError))
          {| currentSessionId := Some (js "s-1"); currentState := None;
             ui := blank; sent := [] |}) = Some (js "s-1").
Proof.
  match goal with
  | |- currentSessionId (exec (handleQuickAction ?a ?s) ?c) = _ =>
      destruct (proj2 (questions_leave_the_debate_state s c) a) as (_ & H & _);
        [discriminate | exact H]
  end.
Defined.

(** ** The agent panel, write by write *)

(** X21: [updateAgentInfo] writes the panel in order and can stop half
    way.  When it returns, either the reply was falsy and the page is
    untouched, or the panel holds the name, role, reasoning, confidence
    and emoji that [extractAgentInfo] gave.  It throws only a TypeError:
    either [extractAgentInfo] threw and the page is untouched, or the
    reasoning or the confidence of the reply is an object without a
    text, and then the agent's name and role are already written while
    the meter and the avatar still show the previous agent. *)
Theorem updateAgentInfo_writes_in_order (agentInfo : value) (v : view) :
  (fst (updateAgentInfo agentInfo v) = Done tt ->
   (extractAgentInfo agentInfo = Return None
    /\ exec (updateAgentInfo agentInfo) v = v)
   \/ exists info,
        extractAgentInfo agentInfo = Return (Some info)
        /\ agentPanel (exec (updateAgentInfo agentInfo) v)
           = {| UIManager.agentName := DebateManager.name info;
                UIManager.agentRole := DebateManager.role info;
                UIManager.agentReasoning := DebateManager.reasoning info;
                UIManager.meter := DebateManager.confidence info;
                UIManager.avatar := DebateManager.emoji info |})
  /\ (forall t, fst (updateAgentInfo agentInfo v) = Raised t ->
      t = Native TypeError
      /\ ((extractAgentInfo agentInfo = Throw TypeError
           /\ exec (updateAgentInfo agentInfo) v = v)
          \/ exists info,
               extractAgentInfo agentInfo = Return (Some info)
               /\ (convertible (DebateManager.reasoning info) = false
                   \/ convertible (DebateManager.confidence info) = false)
               /\ UIManager.agentName (agentPanel (exec (updateAgentInfo agentInfo) v))
                  = DebateManager.name info
               /\ UIManager.agentRole (agentPanel (exec (updateAgentInfo agentInfo) v))
                  = DebateManager.role info
               /\ UIManager.meter (agentPanel (exec (updateAgentInfo agentInfo) v))
                  = UIManager.meter (agentPanel v)
               /\ UIManager.avatar (agentPanel (exec (updateAgentInfo agentInfo) v))
                  = UIManager.avatar (agentPanel v))).
Proof.
  unfold exec.
  destruct (extractAgentInfo agentInfo) as [[info|]|e] eqn:He.
  - rewrite (updateAgentInfo_result agentInfo info v He).
    destruct (convertible (DebateManager.reasoning info)) eqn:Hreason;
      [destruct (convertible (DebateManager.confidence info)) eqn:Hconf|];
      cbn [fst snd]; split;
      try (intros H; discriminate H); try (intros t H; discriminate H).
    + intros _. right. exists info. now split.
    + intros t H. injection H as <-. split; [reflexivity|]. right. exists info.
      repeat split. now right.
    + intros t H. injection H as <-. split; [reflexivity|]. right. exists info.
      repeat split. now left.
  - unfold updateAgentInfo, Prog.bind, lift. rewrite He. cbn [ret fst snd].
    split; [intros _; left; now split | intros t H; discriminate H].
  - unfold updateAgentInfo, Prog.bind, lift. rewrite He. cbn [fst snd].
    split; [intros H; discriminate H|].
    intros t H. injection H as <-.
    assert (E : e = TypeError).
    { destruct (truthy agentInfo) eqn:Ht;
        [|rewrite (extractAgentInfo_falsy agentInfo Ht) in He; discriminate He].
      destruct (convertible (agentName_of agentInfo)) eqn:Hc.
      - destruct (lookup_convertible agentMap _ Hc) as (key & _ & Hl).
        rewrite (extractAgentInfo_truthy agentInfo _ Ht Hl) in He. discriminate He.
      - rewrite (extractAgentInfo_throws agentInfo Ht Hc) in He. congruence. }
    subst e. split; [reflexivity|]. left. now split.
Qed.

Lemma updateAgentInfo_writes_in_order_witness :
  UIManager.agentName
    (agentPanel
       (exec (updateAgentInfo
                (Data (JObj [ (js "agent_name", JStr (js "coach"));
                              (js "reasoning", JObj [ (js "toString", JNum 1) ]) ])))
             blank)) = Str (js "Coach")
  /\ UIManager.avatar
       (agentPanel
          (exec (updateAgentInfo
                   (Data (JObj [ (js "agent_name", JStr (js "coach"));
                                 (js "reasoning", JObj [ (js "toString", JNum 1) ]) ])))
                blank)) = Undefined.
Proof.
  match goal with
  | |- UIManager.agentName (agentPanel (exec (updateAgentInfo ?x) ?v)) = _ /\ _ =>
      destruct (proj2 (updateAgentInfo_writes_in_order x v) (Native TypeError) eq_refl)
        as (_ & [(Hthrow & _) | (info & He & _ & Hname & _ & _ & Havatar)])
  end.
  - vm_compute in Hthrow. discriminate Hthrow.
  - rewrite Hname, Havatar. vm_compute in He. apply Return_inj in He.
    injection He as <-. split; reflexivity.
Defined.

(** ** Adding a message *)

Lemma bind_done {S A B} (m : prog S A) (k : A -> prog S B) (s : S) (b : B) :
  fst (Prog.bind m k s) = Done b ->
  exists a s', m s = (Done a, s') /\ fst (k a s') = Done b.
Proof.
  unfold Prog.bind. destruct (m s) as [[a|t] s']; cbn [fst]; [|discriminate].
  intros H. now exists a, s'.
Qed.

Lemma lift_done {S A} (o : outcome A) (s s' : S) (a : A) :
  lift o s = (Done a, s') -> o = Return a.
Proof. unfold lift. destruct o; intros H; now inversion H. Qed.

Lemma add_type_class_done (type : value) (v : view) (type_text : text) :
  fst (add_type_class type v) = Done type_text ->
  ToString type = Return type_text
  /\ forall s, type_text = Chars s -> existsb is_ascii_white_space s = false.
Proof.
  unfold add_type_class. intros H.
  apply bind_done in H. destruct H as (t & v' & Hl & H).
  apply lift_done in Hl. rewrite Hl.
  destruct t as [s | f].
  - destruct (existsb is_ascii_white_space s) eqn:Hws; [discriminate H|].
    cbn [ret fst] in H. injection H as <-. split; [reflexivity|].
    intros s' E. now injection E as <-.
  - cbn [ret fst] in H. injection H as <-. split; [reflexivity|].
    intros s' E. discriminate E.
Qed.

Lemma createMessageElement_done (m : message) (v : view) (el : element) :
  fst (createMessageElement m v) = Done el ->
  content m = Str (body el)
  /\ role_class el = UIManagerView.role m
  /\ exists type,
       metadata_type (metadata m) = Return type
       /\ (truthy type = false -> type_class el = None)
       /\ (truthy type = true ->
           exists type_text,
             ToString type = Return type_text
             /\ type_class el = Some type_text
             /\ forall s, type_text = Chars s ->
                          existsb is_ascii_white_space s = false).
Proof.
  unfold createMessageElement. intros H.
  apply bind_done in H. destruct H as (v0 & v1 & _ & H).
  apply bind_done in H. destruct H as (shown & v2 & _ & H).
  apply bind_done in H. destruct H as (text & v3 & Hbody & H).
  apply lift_done in Hbody.
  apply bind_done in H. destruct H as (type & v4 & Htype & H).
  apply lift_done in Htype.
  apply bind_done in H. destruct H as (class & v5 & Hclass & H).
  cbn [ret fst] in H. apply (f_equal (fun r => match r with Done e => e | Raised _ => el end)) in H.
  rewrite <- H. cbn [body role_class type_class].
  split.
  { unfold formatMessageContent in Hbody.
    destruct (content m) as [|[| | |s|]|]; try discriminate Hbody.
    apply Return_inj in Hbody. now rewrite Hbody. }
  split; [reflexivity|].
  exists type. split; [exact Htype|].
  destruct (truthy type) eqn:Htruthy.
  - split; [intros E; discriminate E|]. intros _.
    assert (Hfst : fst ((type_text <-- add_type_class type ;; ret (Some type_text)) v4)
                   = Done class) by now rewrite Hclass.
    apply bind_done in Hfst. destruct Hfst as (type_text & v6 & Hadd & Hret).
    cbn [ret fst] in Hret.
    assert (Hc : class = Some type_text) by congruence.
    exists type_text.
    destruct (add_type_class_done type v4 type_text) as [Hts Hclean];
      [now rewrite Hadd|].
    now repeat split.
  - split; [|intros E; discriminate E]. intros _.
    rewrite ?Htruthy in Hclass. unfold ret in Hclass. now inversion Hclass.
Qed.

(** X23: [addMessage] is all or nothing.  When it returns, exactly one
    element was appended, numbered with the counter, which went up by
    one; its content is a string and its role class is the role of the
    message.  When it throws, the page is exactly as before.  A message
    whose metadata type is a text with white space always throws: the
    class list refuses the token. *)
Theorem addMessage_all_or_nothing (m : message) (v : view) :
  (fst (addMessage m v) = Done tt ->
   exists el,
     exec (addMessage m) v
     = with_messages (messagesList v ++ [el])
                     (Datatypes.S (UIManagerView.messageCount v)) v
     /\ UIManagerView.id el = UIManagerView.messageCount v
     /\ content m = Str (body el)
     /\ role_class el = UIManagerView.role m)
  /\ (forall t, fst (addMessage m v) = Raised t -> exec (addMessage m) v = v)
  /\ (forall props s,
        metadata m = Data (JObj props) ->
        own props (js "type") = Some (JStr s) ->
        existsb is_ascii_white_space s = true ->
        exists t, fst (addMessage m v) = Raised t).
Proof.
  pose proof (addMessage_appends m v) as Ha.
  destruct (fst (createMessageElement m v)) as [el|t0] eqn:Hc.
  - destruct Ha as [Ha Hid].
    destruct (createMessageElement_done m v el Hc) as (Hcontent & Hrole & type & Hty & _ & Htext).
    split; [|split].
    + intros _. exists el. unfold exec. rewrite Ha. now repeat split.
    + intros t H. rewrite Ha in H. discriminate H.
    + intros props s Hmeta Hown Hws. exfalso.
      rewrite Hmeta in Hty. cbn [metadata_type] in Hty.
      unfold member in Hty. rewrite table_get, Hown in Hty.
      apply Return_inj in Hty. subst type.
      assert (Htruthy : truthy (Str s) = true).
      { destruct s; [discriminate Hws | reflexivity]. }
      destruct (Htext Htruthy) as (type_text & Hts & _ & Hclean).
      cbn [ToString] in Hts. apply Return_inj in Hts. subst type_text.
      rewrite (Hclean s eq_refl) in Hws. discriminate Hws.
  - split; [|split].
    + intros H. rewrite Ha in H. discriminate H.
    + intros t H. unfold exec. now rewrite Ha.
    + intros props s _ _ _. exists t0. now rewrite Ha.
Qed.

Lemma addMessage_all_or_nothing_witness :
  fst (addMessage {| UIManagerView.role := js "ai";
                     content := Str (js "Consider the cost.");
                     agent_name := Str (js "debater_against");
                     metadata := Data (JObj [ (js "type", JStr (js "follow up")) ]) |}
                  blank)
  = Raised InvalidCharacterError.
Proof.
  match goal with
  | |- fst (addMessage ?m ?v) = _ =>
      destruct (proj2 (proj2 (addMessage_all_or_nothing m v))
                  [ (js "type", JStr (js "follow up")) ] (js "follow up")
                  eq_refl eq_refl eq_refl) as [t Ht]
  end.
  rewrite Ht. vm_compute in Ht. congruence.
Defined.
